(** * The chat widget of the recruiting application

    A shallow embedding of the widget front end:
    - [chatbot.tsx]: the [Chatbot] component (transcript, WebSocket handlers,
      [handleSendMessage]);
    - [chat-input.tsx]: the [ChatInput] component and the earlier, context-free
      [Chatbot] variant kept next to it;
    - [config/api.ts]: [apiConfig].

    JavaScript strings are sequences of UTF-16 code units; the browser
    (WebSocket object, clock) and React (state snapshots, re-render) are part
    of the explicit state and of the events that drive it. *)

From Stdlib Require Import List String Ascii ZArith NArith Bool Lia Sorted.
From Stdlib Require Import DecimalString DecimalZ.
Import ListNotations.
Local Open Scope Z_scope.

(* ===================================================================== *)
(** ** JavaScript strings *)
(* ===================================================================== *)

Module JsString.

(** A string value: its UTF-16 code units, each below [65536]. *)
Definition code_unit := N.
Definition t := list code_unit.

(** A literal of the source text (all literals of the widget are ASCII). *)
Definition str (s : string) : t := map N_of_ascii (list_ascii_of_string s).

(** [a === b] on strings. *)
Fixpoint eqb (a b : t) : bool :=
  match a, b with
  | [], [] => true
  | x :: a', y :: b' => N.eqb x y && eqb a' b'
  | _, _ => false
  end.

(** A string is truthy when it is not empty. *)
Definition truthy (s : t) : bool :=
  match s with [] => false | _ :: _ => true end.

(** [Number.prototype.toString] on an integral value (the clock reading of
    [Date.now()], far below the [1e21] where JavaScript switches to exponent
    notation): the decimal digits, with a leading minus sign when negative. *)
Definition toString (n : Z) : t := str (NilZero.string_of_int (Z.to_int n)).

(** The integer a decimal string denotes, if it is one. *)
Definition string_of_code_units (s : t) : string :=
  string_of_list_ascii (map ascii_of_N s).

Definition parseInt (s : t) : option Z :=
  option_map Z.of_int (NilZero.int_of_string (string_of_code_units s)).

(** [s.startsWith(p)]. *)
Fixpoint starts_with (p s : t) : bool :=
  match p, s with
  | [], _ => true
  | a :: p', b :: s' => N.eqb a b && starts_with p' s'
  | _ :: _, [] => false
  end.

(** [p] occurs in [s] at index [i]. *)
Definition occurs_at (p s : t) (i : nat) : bool := starts_with p (skipn i s).

(** [s.replace(searchValue, replaceValue)] with a string pattern: only the
    first occurrence is replaced.  [replaceValue] is taken literally, which is
    what JavaScript does when it holds no [$] (the widget passes the empty
    string). *)
Fixpoint replace (searchValue replaceValue s : t) : t :=
  if starts_with searchValue s
  then replaceValue ++ skipn (List.length searchValue) s
  else match s with
       | [] => []
       | c :: s' => c :: replace searchValue replaceValue s'
       end.

(** White space and line terminators of ECMAScript, the code units that
    [String.prototype.trim] strips: TAB, LF, VT, FF, CR, SP, NBSP, U+1680,
    U+2000..U+200A, U+2028, U+2029, U+202F, U+205F, U+3000 and U+FEFF. *)
Definition is_white_space (c : code_unit) : bool :=
  ((9 <=? c) && (c <=? 13) || (c =? 32) || (c =? 160) || (c =? 5760)
   || (8192 <=? c) && (c <=? 8202) || (c =? 8232) || (c =? 8233)
   || (c =? 8239) || (c =? 8287) || (c =? 12288) || (c =? 65279))%N.

Fixpoint trimStart (s : t) : t :=
  match s with
  | [] => []
  | c :: s' => if is_white_space c then trimStart s' else s
  end.

Definition trimEnd (s : t) : t := rev (trimStart (rev s)).

Definition trim (s : t) : t := trimEnd (trimStart s).

(** A string made of white space only (the empty string included). *)
Definition blank (s : t) : bool := forallb is_white_space s.

End JsString.

Abbreviation jsstring := JsString.t.
Abbreviation str := JsString.str.
Arguments JsString.toString : simpl never.

(* ===================================================================== *)
(** ** Data model *)
(* ===================================================================== *)

(** [role: "user" | "assistant"] of [Message]. *)
Inductive Role := user | assistant.

Definition Role_eqb (a b : Role) : bool :=
  match a, b with
  | user, user | assistant, assistant => true
  | _, _ => false
  end.

(** [interface Message] of [chat-message.tsx], as the widget builds it:
    [timestamp] is the instant [new Date()] holds, in milliseconds. *)
Module Message.
Record t := mk {
    id : jsstring;
    content : jsstring;
    role : Role;
    timestamp : Z;
  }.
End Message.

(** [applicationContext] of [ChatbotProps].  [number] stands for the
    JavaScript number type: the widget never computes with these fields. *)
Module ApplicationContext.
Record Requirement (number : Type) := mkRequirement {
    vacancy_req : jsstring;
    user_req_data : jsstring;
    match_percent : number;
  }.

Record MatchingSections (number : Type) := mkMatchingSections {
    requirements : list (Requirement number);
    FIT_SCORE : number;
  }.

Record t (number : Type) := mk {
    id : jsstring;
    vacancy_id : jsstring;
    first_name : jsstring;
    last_name : jsstring;
    email : jsstring;
    resume_pdf : jsstring;
    matching_score : number;
    matching_sections : MatchingSections number;
  }.

Arguments mkRequirement {number}.
Arguments mkMatchingSections {number}.
Arguments mk {number}.
Arguments id {number}.
Arguments first_name {number}.
Arguments matching_score {number}.
Arguments matching_sections {number}.
End ApplicationContext.

(** What goes over the transport. *)
Module Wire.
  (** An element of [conversationHistory]: [{ role, content }]. *)
Record HistoryEntry := mkEntry {
    role : Role;
    content : jsstring;
  }.

  (** The object literal [{ message, history, context }]; an absent
      ([undefined]) context is [None]. *)
Record Payload (number : Type) := mkPayload {
    message : jsstring;
    history : list HistoryEntry;
    context : option (ApplicationContext.t number);
  }.
Arguments mkPayload {number}.
Arguments message {number}.
Arguments history {number}.
Arguments context {number}.

  (** The argument of [ws.send]: either [JSON.stringify(payload)], kept as
      the object it serialises, or a bare text. *)
Inductive Frame (number : Type) :=
  | JSON_stringify (payload : Payload number)
  | Text (data : jsstring).
Arguments JSON_stringify {number}.
Arguments Text {number}.
End Wire.

(** A handler either completes or throws. *)
Inductive Fault := InvalidStateError.

Definition Result (A : Type) : Type := Fault + A.
Definition ret {A} (a : A) : Result A := inr a.
Definition bind {A B} (m : Result A) (k : A -> Result B) : Result B :=
  match m with inl e => inl e | inr a => k a end.

Notation "x <- m ;; k" := (bind m (fun x => k))
  (at level 61, m at next level, right associativity).

(** The browser's [WebSocket] object, as far as the widget uses it. *)
Module WebSocket.
Inductive ReadyState := CONNECTING | OPEN | CLOSING | CLOSED.

Definition ReadyState_eqb (a b : ReadyState) : bool :=
  match a, b with
  | CONNECTING, CONNECTING | OPEN, OPEN
  | CLOSING, CLOSING | CLOSED, CLOSED => true
  | _, _ => false
  end.

(** A value handed to the constructor: TypeScript aside, JavaScript lets
    the caller pass a string or anything else, here a function. *)
Inductive UrlArgument :=
| UrlString (url : jsstring)
| UrlFunction (f : jsstring -> jsstring).

Section WithNumber.
Context {number : Type}.

Record t := mk {
  url : UrlArgument;
  readyState : ReadyState;
  (** every frame handed to the network, oldest first *)
  sent : list (Wire.Frame number);
  (** every data [send] was called with once the socket was closing or
      closed: counted in [bufferedAmount], never transmitted *)
  discarded : list (Wire.Frame number);
}.

(** [new WebSocket(url)]. *)
Definition new (url : UrlArgument) : t :=
  {| url := url; readyState := CONNECTING; sent := []; discarded := [] |}.

(** [ws.send(data)]: throws while connecting, transmits while open, and
    once closing or closed takes the data without transmitting it. *)
Definition send (ws : t) (data : Wire.Frame number) : Result t :=
  match readyState ws with
  | CONNECTING => inl InvalidStateError
  | OPEN => ret {| url := url ws; readyState := OPEN;
                   sent := sent ws ++ [data];
                   discarded := discarded ws |}
  | CLOSING | CLOSED =>
      ret {| url := url ws; readyState := readyState ws;
             sent := sent ws;
             discarded := discarded ws ++ [data] |}
  end.

(** [ws.close()]. *)
Definition close (ws : t) : t :=
  match readyState ws with
  | CONNECTING | OPEN =>
      {| url := url ws; readyState := CLOSING; sent := sent ws;
         discarded := discarded ws |}
  | CLOSING | CLOSED => ws
  end.

(** The connection is established: the state becomes [OPEN] just before
    the [open] event is dispatched. *)
Definition established (ws : t) : t :=
  {| url := url ws; readyState := OPEN; sent := sent ws;
     discarded := discarded ws |}.

(** The connection is gone: the state becomes [CLOSED] just before the
    [close] event is dispatched. *)
Definition closed (ws : t) : t :=
  {| url := url ws; readyState := CLOSED; sent := sent ws;
     discarded := discarded ws |}.

End WithNumber.
Arguments t : clear implicits.
End WebSocket.

(* ===================================================================== *)
(** ** [config/api.ts] *)
(* ===================================================================== *)

Module ApiConfig.

(** [import.meta.env], the two variables the file reads. *)
Record Env := mkEnv {
  VITE_API_URL : option jsstring;
  VITE_WS_URL : option jsstring;
}.

(** [value || fallback] on an optional string. *)
Definition or_else (value : option jsstring) (fallback : jsstring) : jsstring :=
  match value with
  | Some s => if JsString.truthy s then s else fallback
  | None => fallback
  end.

Definition API_URL (env : Env) : jsstring :=
  or_else (VITE_API_URL env) (str "http://localhost:8000").

Definition WS_URL (env : Env) : jsstring :=
  or_else (VITE_WS_URL env) (str "ws://localhost:8000").

Record Endpoints := mkEndpoints {
  chat : jsstring;
  chatWs : jsstring -> jsstring;
}.

Record t := mk {
  baseUrl : jsstring;
  wsUrl : jsstring;
  endpoints : Endpoints;
}.

Definition apiConfig (env : Env) : t :=
  {| baseUrl := API_URL env;
     wsUrl := WS_URL env;
     endpoints :=
       {| chat := API_URL env ++ str "/api/chat";
          chatWs := fun applicationId =>
                      WS_URL env ++ str "/ws/chat/" ++ applicationId |} |}.

End ApiConfig.

(* ===================================================================== *)
(** ** [chat-input.tsx]: the input box *)
(* ===================================================================== *)

Module ChatInput.

(** The part of [React.KeyboardEvent<HTMLTextAreaElement>] the handler reads:
    [e.key], [e.shiftKey] and [e.target.value]. *)
Record KeyboardEvent := mkKey {
  key : jsstring;
  shiftKey : bool;
  target_value : jsstring;
}.

Section WithCallback.
Context {S : Type}.

(** The [onSend] prop, acting on the state [S] of whoever supplied it. *)
Variable onSend : jsstring -> S -> Result S.

(** What a key press leaves behind besides the caller's state. *)
Record KeyOutcome := mkKeyOutcome {
  key_state : S;
  key_value : jsstring;          (* [target.value] afterwards *)
  defaultPrevented : bool;
}.

Definition handleKeyPress (e : KeyboardEvent) (s : S) : Result KeyOutcome :=
  if JsString.eqb (key e) (str "Enter") && negb (shiftKey e) then
    if JsString.truthy (JsString.trim (target_value e)) then
      s' <- onSend (target_value e) s ;;
      ret (mkKeyOutcome s' (str "") true)
    else ret (mkKeyOutcome s (target_value e) true)
  else ret (mkKeyOutcome s (target_value e) false).

Record ClickOutcome := mkClickOutcome {
  click_state : S;
  click_value : option jsstring;  (* the found textarea's value afterwards *)
}.

(** [textarea] is the value of the element [document.querySelector("textarea")]
    returns, [None] when it returns [null]. *)
Definition handleSendClick (textarea : option jsstring) (s : S)
  : Result ClickOutcome :=
  match textarea with
  | Some value =>
      if JsString.truthy (JsString.trim value) then
        s' <- onSend value s ;;
        ret (mkClickOutcome s' (Some (str "")))
      else ret (mkClickOutcome s (Some value))
  | None => ret (mkClickOutcome s None)
  end.

End WithCallback.
Arguments KeyOutcome : clear implicits.
Arguments ClickOutcome : clear implicits.

End ChatInput.

(* ===================================================================== *)
(** ** [chatbot.tsx]: the chat component *)
(* ===================================================================== *)

Module Chatbot.

Section Component.
Context {number : Type}.

(** How a template literal prints a number. *)
Variable number_toString : number -> jsstring.

(** The module-level [apiConfig] the component imports. *)
Variable apiConfig : ApiConfig.t.

(** One mounted component.
    - [applicationContext] is the prop;
    - [transcript] is the React state cell, the [prev] every functional
      updater of [setMessages] receives;
    - [messages] is the value that cell had at the last render, the one the
      closures of that render ([handleSendMessage]) read;
    - [wsRef] is [wsRef.current], the socket of the latest run of the
      effect. *)
Record State := mkState {
  applicationContext : option (ApplicationContext.t number);
  transcript : list Message.t;
  messages : list Message.t;
  wsRef : option (WebSocket.t number);
}.

(** The greeting [useState] starts from; [date] is what [new Date()] holds. *)
Definition greeting (ctx : option (ApplicationContext.t number)) (date : Z)
  : Message.t :=
  {| Message.id := str "1";
     Message.content :=
       match ctx with
       | Some c =>
           str "Hello " ++ ApplicationContext.first_name c
           ++ str "! I'm here to help clarify your application. I can see your matching score is "
           ++ number_toString (ApplicationContext.matching_score c)
           ++ str "%. Let me ask you a few questions to better understand your qualifications."
       | None => str "Hello! How can I help you today?"
       end;
     Message.role := assistant;
     Message.timestamp := date |}.

(** The component as first rendered, before its effect has run. *)
Definition mount (ctx : option (ApplicationContext.t number)) (date : Z)
  : State :=
  {| applicationContext := ctx;
     transcript := [greeting ctx date];
     messages := [greeting ctx date];
     wsRef := None |}.

(** [setMessages(updater)]. *)
Definition setMessages (updater : list Message.t -> list Message.t)
    (s : State) : State :=
  {| applicationContext := applicationContext s;
     transcript := updater (transcript s);
     messages := messages s;
     wsRef := wsRef s |}.

(** A re-render: the closures now read the current cell. *)
Definition render (s : State) : State :=
  {| applicationContext := applicationContext s;
     transcript := transcript s;
     messages := transcript s;
     wsRef := wsRef s |}.

Definition set_ws (ws : WebSocket.t number) (s : State) : State :=
  {| applicationContext := applicationContext s;
     transcript := transcript s;
     messages := messages s;
     wsRef := Some ws |}.

(** The effect body up to the handler assignments:
    [new WebSocket(apiConfig.endpoints.chatWs)], stored in [wsRef.current].
    [chatWs] is passed as it is, it is not applied. *)
Definition useEffect (s : State) : State :=
  set_ws (WebSocket.new
            (WebSocket.UrlFunction
               (ApiConfig.chatWs (ApiConfig.endpoints apiConfig)))) s.

Definition initialPayload (c : ApplicationContext.t number)
  : Wire.Payload number :=
  {| Wire.message := str "Initialize conversation with application context";
     Wire.history := [];
     Wire.context := Some c |}.

(** [ws.onopen], for the socket [ws] of the effect. *)
Definition onopen (ws : WebSocket.t number) (s : State) : Result State :=
  match applicationContext s with
  | Some c =>
      if WebSocket.ReadyState_eqb (WebSocket.readyState ws) WebSocket.OPEN
      then ws' <- WebSocket.send ws (Wire.JSON_stringify (initialPayload c)) ;;
           ret (set_ws ws' s)
      else ret s
  | None => ret s
  end.

(** [ws.onmessage]; [now] is [Date.now()], [date] is [new Date()]. *)
Definition onmessage (responseText : jsstring) (now date : Z) (s : State)
  : State :=
  if negb (JsString.eqb responseText (str "connected")) then
    setMessages
      (fun prev =>
         prev ++ [ {| Message.id := JsString.toString now;
                      Message.content := responseText;
                      Message.role := assistant;
                      Message.timestamp := date |} ]) s
  else s.

(** [{ role: msg.role, content: msg.content }]. *)
Definition to_entry (msg : Message.t) : Wire.HistoryEntry :=
  {| Wire.role := Message.role msg; Wire.content := Message.content msg |}.

Definition conversationHistory (messages : list Message.t)
    (userMessage : Message.t) : list Wire.HistoryEntry :=
  map to_entry
    (filter (fun msg => negb (JsString.eqb (Message.id msg) (str "1")))
       (messages ++ [userMessage])).

(** The [userMessage] of [handleSendMessage]. *)
Definition userMessage (message : jsstring) (now date : Z) : Message.t :=
  {| Message.id := JsString.toString now;
     Message.content := message;
     Message.role := user;
     Message.timestamp := date |}.

Definition handleSendMessage (message : jsstring) (now date : Z) (s : State)
  : Result State :=
  let userMessage := userMessage message now date in
  let s1 := setMessages (fun prev => prev ++ [userMessage]) s in
  let conversationHistory := conversationHistory (messages s) userMessage in
  match wsRef s1 with
  | Some ws =>
      if WebSocket.ReadyState_eqb (WebSocket.readyState ws) WebSocket.OPEN
      then
        let payload :=
          {| Wire.message := message;
             Wire.history := conversationHistory;
             Wire.context := applicationContext s1 |} in
        ws' <- WebSocket.send ws (Wire.JSON_stringify payload) ;;
        ret (set_ws ws' s1)
      else ret s1   (* console.error("WebSocket is not connected") *)
  | None => ret s1  (* the same branch, [wsRef.current] being [null] *)
  end.

(** What happens to a mounted component. *)
Inductive Event :=
| Effect                                     (* React runs the effect *)
| Open                                       (* the socket's [open] event *)
| Incoming (data : jsstring) (now date : Z)  (* its [message] event *)
| Error                                      (* its [error] event *)
| Close                                      (* its [close] event *)
| Cleanup                                    (* the effect's cleanup *)
| Render                                     (* React re-renders *)
| KeyDown (e : ChatInput.KeyboardEvent) (now date : Z)
| Click (textarea : option jsstring) (now date : Z).

(** One event.  The browser dispatches [open] once per socket, from
    [CONNECTING], and [message] only while [OPEN].  React runs the effect
    after the first render and again after each cleanup (dependency
    [applicationContext]), never twice without the cleanup in between: the
    cleanup has called [close] on the socket the new one replaces. *)
Definition step (s : State) (ev : Event) : Result State :=
  match ev with
  | Effect =>
      match wsRef s with
      | None => ret (useEffect s)
      | Some ws =>
          match WebSocket.readyState ws with
          | WebSocket.CLOSING | WebSocket.CLOSED => ret (useEffect s)
          | _ => ret s
          end
      end
  | Open =>
      match wsRef s with
      | Some ws =>
          match WebSocket.readyState ws with
          | WebSocket.CONNECTING =>
              onopen (WebSocket.established ws)
                     (set_ws (WebSocket.established ws) s)
          | _ => ret s
          end
      | None => ret s
      end
  | Incoming data now date =>
      match wsRef s with
      | Some ws =>
          match WebSocket.readyState ws with
          | WebSocket.OPEN => ret (onmessage data now date s)
          | _ => ret s
          end
      | None => ret s
      end
  | Error => ret s                            (* console.error only *)
  | Close =>
      match wsRef s with
      | Some ws => ret (set_ws (WebSocket.closed ws) s)
      | None => ret s
      end
  | Cleanup =>
      match wsRef s with
      | Some ws => ret (set_ws (WebSocket.close ws) s)
      | None => ret s
      end
  | Render => ret (render s)
  | KeyDown e now date =>
      o <- ChatInput.handleKeyPress
             (fun message => handleSendMessage message now date) e s ;;
      ret (ChatInput.key_state o)
  | Click textarea now date =>
      o <- ChatInput.handleSendClick
             (fun message => handleSendMessage message now date) textarea s ;;
      ret (ChatInput.click_state o)
  end.

Fixpoint run (s : State) (evs : list Event) : Result State :=
  match evs with
  | [] => ret s
  | ev :: evs' => s' <- step s ev ;; run s' evs'
  end.

(** The frames the session has put on the wire. *)
Definition sent (s : State) : list (Wire.Frame number) :=
  match wsRef s with
  | Some ws => WebSocket.sent ws
  | None => []
  end.

Definition readyState (s : State) : option WebSocket.ReadyState :=
  option_map WebSocket.readyState (wsRef s).

(** What [send] was called with on the session's socket while it was not
    open. *)
Definition discarded (s : State) : list (Wire.Frame number) :=
  match wsRef s with
  | Some ws => WebSocket.discarded ws
  | None => []
  end.

(** Every [Date.now()] reading an event carries. *)
Definition clock (ev : Event) : list Z :=
  match ev with
  | Incoming _ now _ | KeyDown _ now _ | Click _ now _ => [now]
  | _ => []
  end.

End Component.
Arguments State : clear implicits.

End Chatbot.

(* ===================================================================== *)
(** ** The context-free [Chatbot] kept next to [chat-input.tsx] *)
(* ===================================================================== *)

Module FallbackChatbot.

Section Component.
Context {number : Type}.

(** This variant never reads the [messages] of a render in a handler, so the
    state cell is all there is. *)
Record State := mkState {
  transcript : list Message.t;
  wsRef : option (WebSocket.t number);
}.

Definition greeting (date : Z) : Message.t :=
  {| Message.id := str "1";
     Message.content := str "Hello! How can I help you today?";
     Message.role := assistant;
     Message.timestamp := date |}.

Definition mount (date : Z) : State :=
  {| transcript := [greeting date]; wsRef := None |}.

Definition setMessages (updater : list Message.t -> list Message.t)
    (s : State) : State :=
  {| transcript := updater (transcript s); wsRef := wsRef s |}.

Definition set_ws (ws : WebSocket.t number) (s : State) : State :=
  {| transcript := transcript s; wsRef := Some ws |}.

(** [ws.onmessage]. *)
Definition onmessage (responseText : jsstring) (now date : Z) (s : State)
  : State :=
  if negb (JsString.eqb responseText (str "connected")) then
    setMessages
      (fun prev =>
         prev ++ [ {| Message.id := JsString.toString now;
                      Message.content :=
                        JsString.replace (str "echo: ") (str "") responseText;
                      Message.role := assistant;
                      Message.timestamp := date |} ]) s
  else s.

Definition userMessage (message : jsstring) (now date : Z) : Message.t :=
  {| Message.id := JsString.toString now;
     Message.content := message;
     Message.role := user;
     Message.timestamp := date |}.

Definition handleSendMessage (message : jsstring) (now date : Z) (s : State)
  : Result State :=
  let userMessage := userMessage message now date in
  let s1 := setMessages (fun prev => prev ++ [userMessage]) s in
  match wsRef s1 with
  | Some ws =>
      if WebSocket.ReadyState_eqb (WebSocket.readyState ws) WebSocket.OPEN
      then ws' <- WebSocket.send ws (Wire.Text message) ;;
           ret (set_ws ws' s1)
      else ret s1
  | None => ret s1
  end.

End Component.
Arguments State : clear implicits.

End FallbackChatbot.

(* ===================================================================== *)
(** ** Properties *)
(* ===================================================================== *)

(** The transcript holds no two messages with one identifier. *)
Definition distinct_ids (l : list Message.t) : Prop :=
  NoDup (map Message.id l).

(** Identifiers grow with arrival, read as the numbers they spell. *)
Definition id_lt (a b : jsstring) : Prop :=
  exists x y, JsString.parseInt a = Some x
              /\ JsString.parseInt b = Some y /\ x < y.

Definition monotonic_ids (l : list Message.t) : Prop :=
  StronglySorted id_lt (map Message.id l).

(** [i] is the index of the first occurrence of [p] in [s], [None] standing
    for no occurrence at all. *)
Definition first_occurrence (p s : jsstring) (i : option nat) : Prop :=
  match i with
  | Some i =>
      JsString.occurs_at p s i = true
      /\ forall j, (j < i)%nat -> JsString.occurs_at p s j = false
  | None => forall j, JsString.occurs_at p s j = false
  end.

(** [s] with the [n] code units from index [i] on cut out. *)
Definition cut (i n : nat) (s : jsstring) : jsstring :=
  firstn i s ++ skipn (i + n) s.

(** The socket has left [OPEN] for good. *)
Definition left_open {number} (s : Chatbot.State number) : Prop :=
  Chatbot.readyState s = Some WebSocket.CLOSING
  \/ Chatbot.readyState s = Some WebSocket.CLOSED.

(** No [Date.now()] of the events reads [1], the number the greeting's
    identifier spells. *)
Definition clock_avoids_greeting (evs : list Chatbot.Event) : Prop :=
  Forall (fun ev => Forall (fun now => now <> 1) (Chatbot.clock ev)) evs.

(** Every [Date.now()] of the events reads later than the one before, the
    first of them later than [1]. *)
Definition clock_increasing (evs : list Chatbot.Event) : Prop :=
  StronglySorted Z.lt (1 :: flat_map Chatbot.clock evs).

Section StepShape.
Context {number : Type}.
Variable apiConfig : ApiConfig.t.

(** What one event can do, handler by handler. *)
Inductive step_shape (s : Chatbot.State number)
  : Chatbot.Event -> Chatbot.State number -> Prop :=
| shape_idle ev : step_shape s ev s
| shape_effect :
    Chatbot.wsRef s = None \/ left_open s ->
    step_shape s Chatbot.Effect (Chatbot.useEffect apiConfig s)
| shape_open ws s' :
    Chatbot.wsRef s = Some ws ->
    WebSocket.readyState ws = WebSocket.CONNECTING ->
    Chatbot.onopen (WebSocket.established ws)
      (Chatbot.set_ws (WebSocket.established ws) s) = inr s' ->
    step_shape s Chatbot.Open s'
| shape_incoming ws data now date :
    Chatbot.wsRef s = Some ws ->
    WebSocket.readyState ws = WebSocket.OPEN ->
    step_shape s (Chatbot.Incoming data now date)
      (Chatbot.onmessage data now date s)
| shape_close ws :
    Chatbot.wsRef s = Some ws ->
    step_shape s Chatbot.Close (Chatbot.set_ws (WebSocket.closed ws) s)
| shape_cleanup ws :
    Chatbot.wsRef s = Some ws ->
    step_shape s Chatbot.Cleanup (Chatbot.set_ws (WebSocket.close ws) s)
| shape_render : step_shape s Chatbot.Render (Chatbot.render s)
| shape_key e now date s' :
    JsString.blank (ChatInput.target_value e) = false ->
    Chatbot.handleSendMessage (ChatInput.target_value e) now date s = inr s' ->
    step_shape s (Chatbot.KeyDown e now date) s'
| shape_click value now date s' :
    JsString.blank value = false ->
    Chatbot.handleSendMessage value now date s = inr s' ->
    step_shape s (Chatbot.Click (Some value) now date) s'.

End StepShape.

(** The greeting stays first and no later message bears its identifier. *)
Definition greeting_first {number} (number_toString : number -> jsstring)
    (ctx : option (ApplicationContext.t number)) (date0 : Z)
    (s : Chatbot.State number) : Prop :=
  exists rest,
    Chatbot.transcript s = Chatbot.greeting number_toString ctx date0 :: rest
    /\ Forall (fun m => JsString.eqb (Message.id m) (str "1") = false) rest.

(** Nothing is on the wire before the socket opens, and once it is open with
    a context the wire starts with the priming envelope. *)
Definition primed {number} (s : Chatbot.State number) : Prop :=
  (Chatbot.readyState s = None
   \/ Chatbot.readyState s = Some WebSocket.CONNECTING ->
   Chatbot.sent s = [])
  /\ (Chatbot.readyState s = Some WebSocket.OPEN ->
      forall c, Chatbot.applicationContext s = Some c ->
      exists rest,
        Chatbot.sent s = Wire.JSON_stringify (Chatbot.initialPayload c) :: rest).

(** A user message that is white space only. *)
Definition whitespace_only (m : Message.t) : Prop :=
  Message.role m = user /\ JsString.trim (Message.content m) = [].

(** The same session around another context record: the prop and the
    context field of every payload on the wire are replaced. *)
Definition retag_frame {number} (c : ApplicationContext.t number)
    (f : Wire.Frame number) : Wire.Frame number :=
  match f with
  | Wire.JSON_stringify p =>
      Wire.JSON_stringify
        (Wire.mkPayload (Wire.message p) (Wire.history p) (Some c))
  | Wire.Text data => Wire.Text data
  end.

Definition retag_ws {number} (c : ApplicationContext.t number)
    (ws : WebSocket.t number) : WebSocket.t number :=
  WebSocket.mk (WebSocket.url ws) (WebSocket.readyState ws)
    (map (retag_frame c) (WebSocket.sent ws))
    (map (retag_frame c) (WebSocket.discarded ws)).

Definition retag {number} (c : ApplicationContext.t number)
    (s : Chatbot.State number) : Chatbot.State number :=
  Chatbot.mkState (Some c) (Chatbot.transcript s) (Chatbot.messages s)
    (option_map (retag_ws c) (Chatbot.wsRef s)).

(** Closes the routine side goals about an unchanged wire. *)
Ltac wire_done :=
  repeat split; auto; try congruence;
  try match goal with
      | H : _ \/ _ |- _ => destruct H; discriminate
      end.

(* ===================================================================== *)
(** ** A concrete session *)
(* ===================================================================== *)

(** Integral numbers, printed in decimal, stand for the context's numbers;
    no environment variable is set. *)
Module Demo.

Definition config : ApiConfig.t :=
  ApiConfig.apiConfig (ApiConfig.mkEnv None None).

Definition ana : ApplicationContext.t Z :=
  {| ApplicationContext.id := str "42";
     ApplicationContext.vacancy_id := str "7";
     ApplicationContext.first_name := str "Ana";
     ApplicationContext.last_name := str "Lima";
     ApplicationContext.email := str "ana@example.com";
     ApplicationContext.resume_pdf := str "ana.pdf";
     ApplicationContext.matching_score := 82;
     ApplicationContext.matching_sections :=
       {| ApplicationContext.requirements :=
            [ {| ApplicationContext.vacancy_req := str "TypeScript";
                 ApplicationContext.user_req_data := str "3 years";
                 ApplicationContext.match_percent := 90 |} ];
          ApplicationContext.FIT_SCORE := 82 |} |}.

Definition enter (value : string) : ChatInput.KeyboardEvent :=
  ChatInput.mkKey (str "Enter") false (str value).

(** The socket opens, the user sends ["Hi"], the reply arrives, each followed
    by a re-render. *)
Definition one_turn : list Chatbot.Event :=
  [ Chatbot.Effect; Chatbot.Open;
    Chatbot.KeyDown (enter "Hi") 1700000000000 1700000000000;
    Chatbot.Render;
    Chatbot.Incoming (str "Hello, how can I help?") 1700000000500 1700000000500;
    Chatbot.Render ].

(** The same turn, with no re-render since the component was mounted. *)
Definition unrendered_turn : list Chatbot.Event :=
  [ Chatbot.Effect; Chatbot.Open;
    Chatbot.KeyDown (enter "Hi") 1700000000000 1700000000000;
    Chatbot.Incoming (str "Hello, how can I help?") 1700000000500 1700000000500 ].

(** Two frames arrive within one millisecond. *)
Definition same_tick : list Chatbot.Event :=
  [ Chatbot.Effect; Chatbot.Open;
    Chatbot.Incoming (str "Tell me about your last project.")
      1700000000000 1700000000000;
    Chatbot.Incoming (str "Which stack did you use?")
      1700000000000 1700000000000 ].

(** The state a run ends in (the mounted state should a handler throw). *)
Definition after (ctx : option (ApplicationContext.t Z))
    (evs : list Chatbot.Event) : Chatbot.State Z :=
  match Chatbot.run config (Chatbot.mount JsString.toString ctx 0) evs with
  | inr s => s
  | inl _ => Chatbot.mount JsString.toString ctx 0
  end.

(** An [onSend] that only records what it is called with. *)
Definition record (message : jsstring) (calls : list jsstring)
  : Result (list jsstring) :=
  ret (calls ++ [message]).

End Demo.

(* ===================================================================== *)
(** ** The context-free variant as a session *)
(* ===================================================================== *)

(** The effect, the socket events and the input box of the context-free
    [Chatbot], driven by the same events as [Chatbot.step]; a re-render
    changes nothing a handler of this variant reads. *)
Module FallbackSession.

Section Component.
Context {number : Type}.

Variable apiConfig : ApiConfig.t.

(** [new WebSocket(apiConfig.endpoints.chatWs)], stored in [wsRef.current]. *)
Definition useEffect (s : FallbackChatbot.State number)
  : FallbackChatbot.State number :=
  FallbackChatbot.set_ws
    (WebSocket.new
       (WebSocket.UrlFunction
          (ApiConfig.chatWs (ApiConfig.endpoints apiConfig)))) s.

(** [ws.onopen]: [console.log] and nothing else. *)
Definition onopen (s : FallbackChatbot.State number)
  : Result (FallbackChatbot.State number) :=
  ret s.

Definition step (s : FallbackChatbot.State number) (ev : Chatbot.Event)
  : Result (FallbackChatbot.State number) :=
  match ev with
  | Chatbot.Effect =>
      match FallbackChatbot.wsRef s with
      | None => ret (useEffect s)
      | Some _ => ret s
      end
  | Chatbot.Open =>
      match FallbackChatbot.wsRef s with
      | Some ws =>
          match WebSocket.readyState ws with
          | WebSocket.CONNECTING =>
              onopen (FallbackChatbot.set_ws (WebSocket.established ws) s)
          | _ => ret s
          end
      | None => ret s
      end
  | Chatbot.Incoming data now date =>
      match FallbackChatbot.wsRef s with
      | Some ws =>
          match WebSocket.readyState ws with
          | WebSocket.OPEN => ret (FallbackChatbot.onmessage data now date s)
          | _ => ret s
          end
      | None => ret s
      end
  | Chatbot.Error => ret s
  | Chatbot.Close =>
      match FallbackChatbot.wsRef s with
      | Some ws => ret (FallbackChatbot.set_ws (WebSocket.closed ws) s)
      | None => ret s
      end
  | Chatbot.Cleanup =>
      match FallbackChatbot.wsRef s with
      | Some ws => ret (FallbackChatbot.set_ws (WebSocket.close ws) s)
      | None => ret s
      end
  | Chatbot.Render => ret s
  | Chatbot.KeyDown e now date =>
      o <- ChatInput.handleKeyPress
             (fun message => FallbackChatbot.handleSendMessage message now date)
             e s ;;
      ret (ChatInput.key_state o)
  | Chatbot.Click textarea now date =>
      o <- ChatInput.handleSendClick
             (fun message => FallbackChatbot.handleSendMessage message now date)
             textarea s ;;
      ret (ChatInput.click_state o)
  end.

Fixpoint run (s : FallbackChatbot.State number) (evs : list Chatbot.Event)
  : Result (FallbackChatbot.State number) :=
  match evs with
  | [] => ret s
  | ev :: evs' => s' <- step s ev ;; run s' evs'
  end.

Definition sent (s : FallbackChatbot.State number)
  : list (Wire.Frame number) :=
  match FallbackChatbot.wsRef s with
  | Some ws => WebSocket.sent ws
  | None => []
  end.

End Component.

End FallbackSession.

(* ===================================================================== *)
(** ** Further properties *)
(* ===================================================================== *)

(** How far the socket is in its life: not created, connecting, open,
    closing, closed. *)
Definition phase (r : option WebSocket.ReadyState) : nat :=
  match r with
  | None => 0
  | Some WebSocket.CONNECTING => 1
  | Some WebSocket.OPEN => 2
  | Some WebSocket.CLOSING => 3
  | Some WebSocket.CLOSED => 4
  end.

(** The events the user causes. *)
Definition user_input (ev : Chatbot.Event) : bool :=
  match ev with
  | Chatbot.KeyDown _ _ _ | Chatbot.Click _ _ _ => true
  | _ => false
  end.

(** [m] is a message the user wrote. *)
Definition from_user (m : Message.t) : Prop := Message.role m = user.

(** A frame the transcript [l] accounts for, in a session with the prop
    [ctx]: the priming envelope, or a payload with the prop as context, the
    text of a user message of [l] as message, and a history drawn from [l]. *)
Definition accounted {number} (ctx : option (ApplicationContext.t number))
    (l : list Message.t) (f : Wire.Frame number) : Prop :=
  exists p,
    f = Wire.JSON_stringify p
    /\ ((exists c, ctx = Some c /\ p = Chatbot.initialPayload c)
        \/ (Wire.context p = ctx
            /\ (exists m, In m l /\ from_user m
                          /\ Message.content m = Wire.message p)
            /\ Forall (fun e => exists m, In m l /\ Chatbot.to_entry m = e)
                 (Wire.history p))).

(** A payload whose history ends with the message it carries. *)
Definition ends_with_own_message {number} (f : Wire.Frame number) : Prop :=
  exists p,
    f = Wire.JSON_stringify p
    /\ (Wire.history p = [] (* the priming envelope *)
        /\ Wire.message p
           = str "Initialize conversation with application context"
        \/ exists earlier,
             Wire.history p
             = earlier ++ [Wire.mkEntry user (Wire.message p)]).

(** A frame of the context-free variant that the transcript [l] accounts
    for: the bare, non-blank text of a user message of [l]. *)
Definition bare_user_text {number} (l : list Message.t)
    (f : Wire.Frame number) : Prop :=
  exists m,
    In m l /\ from_user m /\ JsString.blank (Message.content m) = false
    /\ f = Wire.Text (Message.content m).

(** The snapshot the closures read is the transcript as it once was. *)
Definition snapshot_lags {number} (s : Chatbot.State number) : Prop :=
  exists suffix, Chatbot.transcript s = Chatbot.messages s ++ suffix.

(** The wire is accounted for by the transcript, and the snapshot lags. *)
Definition wire_accounted {number} (s : Chatbot.State number) : Prop :=
  snapshot_lags s
  /\ Forall (accounted (Chatbot.applicationContext s) (Chatbot.transcript s))
       (Chatbot.sent s).

(** The messages of a transcript the user wrote. *)
Definition user_messages (l : list Message.t) : list Message.t :=
  filter (fun m => Role_eqb (Message.role m) user) l.

(** More concrete data: events without user input, and an open socket of
    the context-free variant. *)
Module Sample.

(** A late frame, then the effect is cleaned up and runs again, and the new
    socket opens. *)
Definition quiet : list Chatbot.Event :=
  [ Chatbot.Incoming (str "connected") 1700000000600 1700000000600;
    Chatbot.Incoming (str "Welcome, Ana.") 1700000000700 1700000000700;
    Chatbot.Render; Chatbot.Error;
    Chatbot.Cleanup; Chatbot.Effect; Chatbot.Open ].

(** What happens to one socket, from its [open] to its [close]. *)
Definition one_socket : list Chatbot.Event :=
  [ Chatbot.Open;
    Chatbot.KeyDown (Demo.enter "Hi") 1700000000000 1700000000000;
    Chatbot.Render;
    Chatbot.Incoming (str "Hello, how can I help?") 1700000000500 1700000000500;
    Chatbot.Cleanup;
    Chatbot.KeyDown (Demo.enter "Anyone?") 1700000000900 1700000000900;
    Chatbot.Close ].

Definition next_turn : list Chatbot.Event :=
  [ Chatbot.Incoming (str "You are welcome.") 1700000001500 1700000001500;
    Chatbot.Render ].

(** The session of [Demo.one_turn] after the user has sent ["Thanks"], and
    after the reply to that. *)
Definition after_thanks : Chatbot.State Z :=
  match Chatbot.handleSendMessage (str "Thanks") 1700000001000 1700000001000
          (Demo.after None Demo.one_turn) with
  | inr s => s
  | inl _ => Demo.after None Demo.one_turn
  end.

Definition after_next_turn : Chatbot.State Z :=
  match Chatbot.run Demo.config after_thanks next_turn with
  | inr s => s
  | inl _ => after_thanks
  end.

Definition fallback_open : FallbackChatbot.State Z :=
  match FallbackSession.run Demo.config (FallbackChatbot.mount 0)
          [Chatbot.Effect; Chatbot.Open] with
  | inr s => s
  | inl _ => FallbackChatbot.mount 0
  end.

End Sample.

(* ===================================================================== *)
(** ** Facts about strings *)
(* ===================================================================== *)

Lemma eqb_eq (a b : jsstring) : JsString.eqb a b = true <-> a = b.
Proof.
  revert b; induction a as [|x a IH]; intros [|y b]; simpl;
    try (split; [discriminate | discriminate]); try tauto.
  rewrite andb_true_iff, N.eqb_eq, IH.
  split; [intros [-> ->]; reflexivity | intros [= -> ->]; auto].
Qed.

Lemma eqb_neq (a b : jsstring) : JsString.eqb a b = false <-> a <> b.
Proof.
  rewrite <- eqb_eq. destruct (JsString.eqb a b); split; congruence.
Qed.

Lemma string_of_code_units_str (s : string) :
  JsString.string_of_code_units (str s) = s.
Proof.
  unfold JsString.string_of_code_units, JsString.str.
  rewrite map_map.
  rewrite (map_ext _ (fun a => a)) by apply ascii_N_embedding.
  rewrite map_id. apply string_of_list_ascii_of_string.
Qed.

Lemma to_int_proper (n : Z) :
  Z.to_int n <> Decimal.Pos Decimal.Nil /\ Z.to_int n <> Decimal.Neg Decimal.Nil.
Proof.
  destruct n as [|p|p]; simpl; split; try discriminate;
    intros [= H]; revert H; apply DecimalPos.Unsigned.to_uint_nonnil.
Qed.

(** The digits [toString] prints spell the number printed. *)
Lemma parseInt_toString (n : Z) :
  JsString.parseInt (JsString.toString n) = Some n.
Proof.
  unfold JsString.parseInt, JsString.toString.
  rewrite string_of_code_units_str.
  destruct (to_int_proper n) as [Hp Hn].
  rewrite NilZero.isi by assumption.
  simpl. f_equal. apply DecimalZ.of_to.
Qed.

Lemma toString_inj (a b : Z) :
  JsString.toString a = JsString.toString b -> a = b.
Proof.
  intros H.
  assert (E : Some a = Some b)
    by (rewrite <- (parseInt_toString a), <- (parseInt_toString b), H;
        reflexivity).
  now injection E.
Qed.

(** Only the clock reading [1] prints as the greeting's identifier. *)
Lemma toString_greeting_id (n : Z) :
  JsString.eqb (JsString.toString n) (str "1") = true <-> n = 1.
Proof.
  rewrite eqb_eq. split.
  - intros H. apply toString_inj. exact H.
  - intros ->. reflexivity.
Qed.

Lemma occurs_at_0 (p s : jsstring) :
  JsString.occurs_at p s 0 = JsString.starts_with p s.
Proof. reflexivity. Qed.

Lemma occurs_at_S (p : jsstring) c s i :
  JsString.occurs_at p (c :: s) (S i) = JsString.occurs_at p s i.
Proof. reflexivity. Qed.

Lemma occurs_at_nil (p : jsstring) i :
  JsString.occurs_at p [] i = JsString.starts_with p [].
Proof. unfold JsString.occurs_at. now rewrite skipn_nil. Qed.

(** [replace] rewrites at the first occurrence and nowhere else. *)
Lemma replace_at_first (p r s : jsstring) (i : nat) :
  first_occurrence p s (Some i) ->
  JsString.replace p r s = firstn i s ++ r ++ skipn (i + List.length p) s.
Proof.
  revert i; induction s as [|c s IH]; intros i [Hi Hlt].
  - rewrite occurs_at_nil in Hi. simpl. rewrite Hi.
    now rewrite firstn_nil, !skipn_nil.
  - destruct i as [|i].
    + rewrite occurs_at_0 in Hi.
      cbn [JsString.replace]. rewrite Hi. reflexivity.
    + assert (H0 : JsString.starts_with p (c :: s) = false)
        by (rewrite <- occurs_at_0; apply Hlt; lia).
      cbn [JsString.replace]. rewrite H0.
      cbn [firstn Nat.add skipn app]. f_equal.
      apply IH. split.
      * now rewrite <- (occurs_at_S p c).
      * intros j Hj. rewrite <- (occurs_at_S p c). apply Hlt. lia.
Qed.

Lemma replace_absent (p r s : jsstring) :
  first_occurrence p s None -> JsString.replace p r s = s.
Proof.
  induction s as [|c s IH]; intros H.
  - simpl. now rewrite <- (occurs_at_0 p []), H.
  - cbn [JsString.replace].
    rewrite <- (occurs_at_0 p (c :: s)), H. f_equal.
    apply IH. intros j. rewrite <- (occurs_at_S p c). apply H.
Qed.

Lemma blank_app (a b : jsstring) :
  JsString.blank (a ++ b) = JsString.blank a && JsString.blank b.
Proof. apply forallb_app. Qed.

Lemma blank_rev (s : jsstring) : JsString.blank (rev s) = JsString.blank s.
Proof.
  induction s as [|c s IH]; [reflexivity|].
  simpl. rewrite blank_app, IH. simpl.
  rewrite andb_true_r. apply andb_comm.
Qed.

Lemma trimStart_nil (s : jsstring) :
  JsString.trimStart s = [] <-> JsString.blank s = true.
Proof.
  induction s as [|c s IH]; simpl; [tauto|].
  destruct (JsString.is_white_space c); simpl; [exact IH|].
  split; discriminate.
Qed.

Lemma blank_trimStart (s : jsstring) :
  JsString.blank (JsString.trimStart s) = JsString.blank s.
Proof.
  induction s as [|c s IH]; simpl; [reflexivity|].
  destruct (JsString.is_white_space c) eqn:E; simpl; [exact IH|].
  now rewrite E.
Qed.

(** [trim] leaves nothing exactly when the string is blank. *)
Lemma trim_nil (s : jsstring) :
  JsString.trim s = [] <-> JsString.blank s = true.
Proof.
  unfold JsString.trim, JsString.trimEnd.
  rewrite <- (blank_trimStart s), <- (blank_rev (JsString.trimStart s)).
  rewrite <- trimStart_nil.
  split; intros H.
  - apply (f_equal (@rev _)) in H. now rewrite rev_involutive in H.
  - now rewrite H.
Qed.

Lemma trim_truthy (s : jsstring) :
  JsString.truthy (JsString.trim s) = negb (JsString.blank s).
Proof.
  destruct (JsString.blank s) eqn:E.
  - apply trim_nil in E. now rewrite E.
  - destruct (JsString.trim s) eqn:T; [|reflexivity].
    apply trim_nil in T. congruence.
Qed.

(* ===================================================================== *)
(** ** Facts about the chat component *)
(* ===================================================================== *)

Section ChatbotFacts.
Context {number : Type}.
Variable number_toString : number -> jsstring.
Variable apiConfig : ApiConfig.t.

Local Abbreviation State := (Chatbot.State number).
Local Abbreviation step := (Chatbot.step apiConfig).
Local Abbreviation run := (Chatbot.run apiConfig).

(** The payload a send puts on the wire from state [s]. *)
Local Abbreviation turn_payload message now date s :=
  (Wire.mkPayload message
     (Chatbot.conversationHistory (Chatbot.messages s)
        (Chatbot.userMessage message now date))
     (Chatbot.applicationContext s)).

Lemma ReadyState_eqb_eq a b :
  WebSocket.ReadyState_eqb a b = true <-> a = b.
Proof. destruct a, b; simpl; split; congruence. Qed.

(** [handleSendMessage] always completes; it appends the user message to
    the cell and, on an open socket only, puts one payload on the wire. *)
Lemma handleSendMessage_inr message now date (s : State) :
  exists s',
    Chatbot.handleSendMessage message now date s = inr s'
    /\ Chatbot.applicationContext s' = Chatbot.applicationContext s
    /\ Chatbot.transcript s'
       = Chatbot.transcript s ++ [Chatbot.userMessage message now date]
    /\ Chatbot.messages s' = Chatbot.messages s
    /\ match Chatbot.wsRef s with
       | Some ws =>
           match WebSocket.readyState ws with
           | WebSocket.OPEN =>
               Chatbot.wsRef s'
               = Some (WebSocket.mk (WebSocket.url ws) WebSocket.OPEN
                         (WebSocket.sent ws
                          ++ [Wire.JSON_stringify
                                (turn_payload message now date s)])
                         (WebSocket.discarded ws))
           | _ => Chatbot.wsRef s' = Some ws
           end
       | None => Chatbot.wsRef s' = None
       end.
Proof.
  unfold Chatbot.handleSendMessage, Chatbot.setMessages. cbn.
  destruct (Chatbot.wsRef s) as [ws|] eqn:W;
    [|eexists; repeat split; cbn; assumption].
  unfold WebSocket.send.
  destruct (WebSocket.readyState ws) eqn:E; cbn;
    eexists; repeat split; cbn; try rewrite E; try assumption; reflexivity.
Qed.

Lemma step_has_shape (s : State) ev s' :
  step s ev = inr s' -> step_shape apiConfig s ev s'.
Proof.
  destruct ev; cbn.
  - destruct (Chatbot.wsRef s) as [ws|] eqn:E;
      [|intros [= <-]; constructor; now left].
    destruct (WebSocket.readyState ws) eqn:R; intros [= <-];
      try (now constructor);
      constructor; right; unfold left_open, Chatbot.readyState;
      rewrite E; cbn; rewrite R; auto.
  - destruct (Chatbot.wsRef s) as [ws|] eqn:E; [|intros [= <-]; constructor].
    destruct (WebSocket.readyState ws) eqn:R;
      try (intros [= <-]; constructor).
    intros H. now apply (shape_open apiConfig s ws).
  - destruct (Chatbot.wsRef s) as [ws|] eqn:E; [|intros [= <-]; constructor].
    destruct (WebSocket.readyState ws) eqn:R; intros [= <-];
      try constructor.
    now apply (shape_incoming apiConfig s ws).
  - intros [= <-]; constructor.
  - destruct (Chatbot.wsRef s) as [ws|] eqn:E; intros [= <-];
      [now apply (shape_close apiConfig s ws) | constructor].
  - destruct (Chatbot.wsRef s) as [ws|] eqn:E; intros [= <-];
      [now apply (shape_cleanup apiConfig s ws) | constructor].
  - intros [= <-]; constructor.
  - unfold ChatInput.handleKeyPress.
    destruct (JsString.eqb (ChatInput.key e) (str "Enter")
              && negb (ChatInput.shiftKey e));
      [|intros [= <-]; constructor].
    rewrite trim_truthy.
    destruct (JsString.blank (ChatInput.target_value e)) eqn:B; cbn;
      [intros [= <-]; constructor|].
    destruct (Chatbot.handleSendMessage _ _ _ s) as [f|s1] eqn:H; cbn;
      intros [= <-]. now constructor.
  - unfold ChatInput.handleSendClick.
    destruct textarea as [value|]; [|intros [= <-]; constructor].
    rewrite trim_truthy.
    destruct (JsString.blank value) eqn:B; cbn;
      [intros [= <-]; constructor|].
    destruct (Chatbot.handleSendMessage _ _ _ s) as [f|s1] eqn:H; cbn;
      intros [= <-]. now constructor.
Qed.

(** [onopen] on the socket the browser has just opened. *)
Lemma onopen_established ws (s : State) :
  Chatbot.onopen (WebSocket.established ws)
    (Chatbot.set_ws (WebSocket.established ws) s)
  = inr (Chatbot.set_ws
           (WebSocket.mk (WebSocket.url ws) WebSocket.OPEN
              (WebSocket.sent ws
               ++ match Chatbot.applicationContext s with
                  | Some c => [Wire.JSON_stringify (Chatbot.initialPayload c)]
                  | None => []
                  end)
              (WebSocket.discarded ws)) s).
Proof.
  unfold Chatbot.onopen. cbn.
  destruct (Chatbot.applicationContext s); cbn; [reflexivity|].
  now rewrite app_nil_r.
Qed.

(** No handler throws: every send is behind a check of [readyState]. *)
Lemma step_total (s : State) ev : exists s', step s ev = inr s'.
Proof.
  destruct ev; cbn; try (eexists; reflexivity).
  - destruct (Chatbot.wsRef s) as [ws|]; [|eexists; reflexivity].
    destruct (WebSocket.readyState ws); eexists; reflexivity.
  - destruct (Chatbot.wsRef s) as [ws|]; [|eexists; reflexivity].
    destruct (WebSocket.readyState ws); try (eexists; reflexivity).
    rewrite onopen_established. eexists; reflexivity.
  - destruct (Chatbot.wsRef s) as [ws|]; [|eexists; reflexivity].
    destruct (WebSocket.readyState ws); eexists; reflexivity.
  - destruct (Chatbot.wsRef s); eexists; reflexivity.
  - destruct (Chatbot.wsRef s); eexists; reflexivity.
  - unfold ChatInput.handleKeyPress.
    destruct (_ && _); [|eexists; reflexivity].
    destruct (JsString.truthy _); [|eexists; reflexivity].
    destruct (handleSendMessage_inr (ChatInput.target_value e) now date s)
      as (s' & -> & _). eexists; reflexivity.
  - unfold ChatInput.handleSendClick.
    destruct textarea as [value|]; [|eexists; reflexivity].
    destruct (JsString.truthy _); [|eexists; reflexivity].
    destruct (handleSendMessage_inr value now date s) as (s' & -> & _).
    eexists; reflexivity.
Qed.

Lemma run_total evs : forall s : State, exists s', run s evs = inr s'.
Proof.
  induction evs as [|ev evs IH]; intros s; cbn; [eexists; reflexivity|].
  destruct (step_total s ev) as [s1 ->]. cbn. apply IH.
Qed.

(** Induction along a run: a property every step keeps, under a condition
    on the events, holds at the end. *)
Lemma run_invariant (P : State -> Prop) (Q : Chatbot.Event -> Prop) :
  (forall s ev s', P s -> Q ev -> step s ev = inr s' -> P s') ->
  forall evs s s', P s -> Forall Q evs -> run s evs = inr s' -> P s'.
Proof.
  intros Hstep. induction evs as [|ev evs IH]; intros s s' Hs HQ; cbn.
  - now intros [= <-].
  - inversion HQ as [|? ? Hev Hevs]; subst.
    destruct (step s ev) as [f|s1] eqn:E; cbn; [discriminate|].
    apply IH; [eapply Hstep; eauto | assumption].
Qed.

(** A send, whatever the socket's state, changes the state as
    [handleSendMessage_inr] says. *)
Lemma handleSendMessage_result message now date (s s' : State) :
  Chatbot.handleSendMessage message now date s = inr s' ->
  Chatbot.applicationContext s' = Chatbot.applicationContext s
  /\ Chatbot.transcript s'
     = Chatbot.transcript s ++ [Chatbot.userMessage message now date]
  /\ Chatbot.messages s' = Chatbot.messages s
  /\ (Chatbot.readyState s = Some WebSocket.OPEN ->
      Chatbot.readyState s' = Some WebSocket.OPEN
      /\ Chatbot.sent s'
         = Chatbot.sent s
           ++ [Wire.JSON_stringify (turn_payload message now date s)])
  /\ (Chatbot.readyState s <> Some WebSocket.OPEN ->
      Chatbot.wsRef s' = Chatbot.wsRef s).
Proof.
  intros H.
  destruct (handleSendMessage_inr message now date s)
    as (s1 & E & Hc & Ht & Hm & Hw).
  rewrite E in H. injection H as <-.
  repeat split; try assumption.
  - unfold Chatbot.readyState in *.
    destruct (Chatbot.wsRef s) as [ws|]; [|discriminate].
    cbn in H. injection H as H. rewrite H in Hw. now rewrite Hw.
  - unfold Chatbot.readyState, Chatbot.sent in *.
    destruct (Chatbot.wsRef s) as [ws|]; [|discriminate].
    cbn in H. injection H as H. rewrite H in Hw. now rewrite Hw.
  - unfold Chatbot.readyState. intros Hn.
    destruct (Chatbot.wsRef s) as [ws|]; [|assumption].
    cbn in Hn.
    destruct (WebSocket.readyState ws); try assumption.
    now elim Hn.
Qed.

(** The transcript only grows, by one message at a time; a new message is
    named after the event's clock reading and, when the user wrote it, is not
    blank. *)
Lemma step_transcript (s : State) ev s' :
  step s ev = inr s' ->
  Chatbot.transcript s' = Chatbot.transcript s
  \/ exists m now,
       Chatbot.clock ev = [now]
       /\ Chatbot.transcript s' = Chatbot.transcript s ++ [m]
       /\ Message.id m = JsString.toString now
       /\ (Message.role m = user -> JsString.blank (Message.content m) = false).
Proof.
  intros H. apply step_has_shape in H.
  destruct H as [ev|W|ws s' W R H|ws data now date W R|ws W|ws W|
                 |e now date s' B H|value now date s' B H];
    try (left; reflexivity).
  - rewrite onopen_established in H. injection H as <-. now left.
  - unfold Chatbot.onmessage.
    destruct (negb _); [|now left].
    right. eexists _, now. cbn. repeat split. discriminate.
  - right. apply handleSendMessage_result in H as (_ & Ht & _).
    exists (Chatbot.userMessage (ChatInput.target_value e) now date), now.
    now repeat split.
  - right. apply handleSendMessage_result in H as (_ & Ht & _).
    exists (Chatbot.userMessage value now date), now.
    now repeat split.
Qed.

(** The prop is never assigned. *)
Lemma step_context (s : State) ev s' :
  step s ev = inr s' ->
  Chatbot.applicationContext s' = Chatbot.applicationContext s.
Proof.
  intros H. apply step_has_shape in H.
  destruct H as [ev|W|ws s' W R H|ws data now date W R|ws W|ws W|
                 |e now date s' B H|value now date s' B H];
    try reflexivity.
  - rewrite onopen_established in H. now injection H as <-.
  - unfold Chatbot.onmessage. now destruct (negb _).
  - now apply handleSendMessage_result in H.
  - now apply handleSendMessage_result in H.
Qed.

(** What one event adds to the wire: nothing unless the socket is open or
    opening, and only payloads that carry the prop; a new run of the effect
    starts a socket with an empty wire. *)
Lemma step_sent (s : State) ev s' :
  step s ev = inr s' ->
  exists new,
    (ev = Chatbot.Effect /\ Chatbot.sent s' = []
     \/ Chatbot.sent s' = Chatbot.sent s ++ new)
    /\ Forall (fun f => exists p, f = Wire.JSON_stringify p
                        /\ Wire.context p = Chatbot.applicationContext s) new
    /\ (Chatbot.readyState s <> Some WebSocket.OPEN ->
        ev <> Chatbot.Open -> new = [])
    /\ (left_open s -> ev <> Chatbot.Effect -> new = [] /\ left_open s').
Proof.
  intros H. apply step_has_shape in H.
  assert (Hnot : forall x : State, left_open x ->
            Chatbot.readyState x <> Some WebSocket.OPEN)
    by (intros x [E|E]; rewrite E; discriminate).
  assert (D : Chatbot.readyState s = Some WebSocket.OPEN
              \/ Chatbot.readyState s <> Some WebSocket.OPEN)
    by (destruct (Chatbot.readyState s) as [[]|]; auto; right; discriminate).
  destruct H as [ev|W|ws s' W R H|ws data now date W R|ws W|ws W|
                 |e now date s' B H|value now date s' B H].
  - exists []. split; [right; now rewrite app_nil_r|]. wire_done.
  - exists []. split; [left; split; reflexivity|]. wire_done.
  - rewrite onopen_established in H. injection H as <-.
    unfold Chatbot.sent, left_open, Chatbot.readyState. rewrite W. cbn.
    eexists; split; [right; reflexivity|]. rewrite R. wire_done.
    destruct (Chatbot.applicationContext s); repeat constructor.
    eexists; split; reflexivity.
  - exists [].
    assert (E : Chatbot.wsRef (Chatbot.onmessage data now date s)
                = Chatbot.wsRef s)
      by (unfold Chatbot.onmessage; now destruct (negb _)).
    unfold Chatbot.sent, left_open, Chatbot.readyState. rewrite E.
    split; [right; now rewrite app_nil_r|]. wire_done.
  - exists []. unfold Chatbot.sent, left_open, Chatbot.readyState.
    rewrite W. cbn. split; [right; now rewrite app_nil_r|]. wire_done.
  - exists []. unfold Chatbot.sent, left_open, Chatbot.readyState.
    rewrite W. cbn. unfold WebSocket.close.
    destruct (WebSocket.readyState ws) eqn:R; cbn; rewrite ?R;
      (split; [right; now rewrite app_nil_r|]); wire_done.
  - exists []. split; [right; now rewrite app_nil_r|]. cbn. wire_done.
  - apply handleSendMessage_result in H as (Hc & _ & _ & Ho & Hn).
    destruct D as [D|D].
    + destruct (Ho D) as [R' ->]. eexists; split; [right; reflexivity|].
      split; [repeat constructor; eexists; split; reflexivity|].
      split; [congruence|]. intros L. now apply Hnot in L.
    + exists [].
      unfold Chatbot.sent, left_open, Chatbot.readyState.
      rewrite (Hn D). split; [right; now rewrite app_nil_r|]. wire_done.
  - apply handleSendMessage_result in H as (Hc & _ & _ & Ho & Hn).
    destruct D as [D|D].
    + destruct (Ho D) as [R' ->]. eexists; split; [right; reflexivity|].
      split; [repeat constructor; eexists; split; reflexivity|].
      split; [congruence|]. intros L. now apply Hnot in L.
    + exists [].
      unfold Chatbot.sent, left_open, Chatbot.readyState.
      rewrite (Hn D). split; [right; now rewrite app_nil_r|]. wire_done.
Qed.

(** No handler calls [send] on a socket that is not open: an event leaves
    what the socket has discarded as it is, or starts a socket that has
    discarded nothing. *)
Lemma step_discarded (s : State) ev s' :
  step s ev = inr s' ->
  Chatbot.discarded s' = Chatbot.discarded s
  \/ ev = Chatbot.Effect /\ Chatbot.discarded s' = [].
Proof.
  intros H. apply step_has_shape in H.
  destruct H as [ev|W|ws s' W R H|ws data now date W R|ws W|ws W|
                 |e now date s' B H|value now date s' B H].
  - now left.
  - right. split; reflexivity.
  - rewrite onopen_established in H. injection H as <-.
    left. unfold Chatbot.discarded. now rewrite W.
  - left. unfold Chatbot.discarded, Chatbot.onmessage.
    now destruct (negb _).
  - left. unfold Chatbot.discarded. now rewrite W.
  - left. unfold Chatbot.discarded. rewrite W. cbn. unfold WebSocket.close.
    now destruct (WebSocket.readyState ws).
  - now left.
  - left.
    destruct (handleSendMessage_inr (ChatInput.target_value e) now date s)
      as (s1 & E & _ & _ & _ & Hw).
    rewrite E in H. injection H as <-. unfold Chatbot.discarded.
    destruct (Chatbot.wsRef s) as [ws|]; [|now rewrite Hw].
    destruct (WebSocket.readyState ws); now rewrite Hw.
  - left.
    destruct (handleSendMessage_inr value now date s)
      as (s1 & E & _ & _ & _ & Hw).
    rewrite E in H. injection H as <-. unfold Chatbot.discarded.
    destruct (Chatbot.wsRef s) as [ws|]; [|now rewrite Hw].
    destruct (WebSocket.readyState ws); now rewrite Hw.
Qed.

Lemma greeting_first_run ctx date0 evs (s : State) :
  run (Chatbot.mount number_toString ctx date0) evs = inr s ->
  clock_avoids_greeting evs ->
  greeting_first number_toString ctx date0 s.
Proof.
  intros Hrun Hclock.
  refine (run_invariant (greeting_first number_toString ctx date0) _ _ evs _ s _ Hclock Hrun).
  - clear. intros s ev s' (rest & Ht & Hrest) Hev Hstep.
    destruct (step_transcript s ev s' Hstep)
      as [E|(m & now & Hc & E & Hid & _)]; unfold greeting_first; rewrite E.
    + now exists rest.
    + exists (rest ++ [m]). rewrite Ht. split; [reflexivity|].
      apply Forall_app. split; [assumption|].
      constructor; [|constructor].
      rewrite Hid. apply eqb_neq. intros H.
      rewrite Hc in Hev. inversion Hev as [|? ? Hnow _]; subst.
      apply Hnow. apply toString_greeting_id. now apply eqb_eq.
  - exists []. split; [reflexivity|constructor].
Qed.

Lemma run_context evs : forall s s' : State,
  run s evs = inr s' ->
  Chatbot.applicationContext s' = Chatbot.applicationContext s.
Proof.
  induction evs as [|ev evs IH]; intros s s'; cbn.
  - now intros [= <-].
  - destruct (step s ev) as [f|s1] eqn:E; cbn; [discriminate|].
    intros H. rewrite (IH _ _ H). now apply step_context in E.
Qed.

Lemma filter_keeps_all {A} (f : A -> bool) (l : list A) :
  Forall (fun x => f x = true) l -> filter f l = l.
Proof.
  induction 1 as [|x l Hx _ IH]; cbn; [reflexivity|].
  now rewrite Hx, IH.
Qed.

(** C1 (amended).  On a send from a reachable state whose render is current
    (the component has re-rendered since the transcript last changed) and
    whose socket is open, no clock reading of the session or of the send
    being [1], the payload's history is the transcript without the greeting
    (role and content of every earlier message, in arrival order) followed
    by the new user message. *)
Theorem history_is_prior_turns_then_new_message
    ctx date0 evs (s : State) message now date :
  run (Chatbot.mount number_toString ctx date0) evs = inr s ->
  clock_avoids_greeting evs ->
  now <> 1 ->
  Chatbot.messages s = Chatbot.transcript s ->
  Chatbot.readyState s = Some WebSocket.OPEN ->
  exists rest s',
    Chatbot.transcript s = Chatbot.greeting number_toString ctx date0 :: rest
    /\ Chatbot.handleSendMessage message now date s = inr s'
    /\ Chatbot.sent s'
       = Chatbot.sent s
         ++ [Wire.JSON_stringify
               (Wire.mkPayload message
                  (map Chatbot.to_entry rest ++ [Wire.mkEntry user message])
                  ctx)].
Proof.
  intros Hrun Hclock Hnow Hrender Hopen.
  destruct (greeting_first_run ctx date0 evs s Hrun Hclock)
    as (rest & Ht & Hrest).
  destruct (handleSendMessage_inr message now date s) as (s' & Hs' & _).
  exists rest, s'. repeat split; [assumption..|].
  destruct (handleSendMessage_result _ _ _ _ _ Hs') as (_ & _ & _ & Ho & _).
  destruct (Ho Hopen) as [_ ->].
  assert (Hctx : Chatbot.applicationContext s = ctx).
  { now rewrite (run_context _ _ _ Hrun). }
  assert (Hhist :
    Chatbot.conversationHistory (Chatbot.messages s)
      (Chatbot.userMessage message now date)
    = map Chatbot.to_entry rest ++ [Wire.mkEntry user message]).
  { unfold Chatbot.conversationHistory.
    rewrite Hrender, Ht. cbn [app filter].
    change (JsString.eqb
              (Message.id (Chatbot.greeting number_toString ctx date0))
              (str "1")) with true.
    cbn [negb]. rewrite filter_keeps_all; [now rewrite map_app|].
    apply Forall_app. split.
    - eapply Forall_impl; [|exact Hrest].
      intros m Hm. cbn beta. now rewrite Hm.
    - constructor; [|constructor]. cbn.
      apply negb_true_iff, eqb_neq. intros H. apply Hnow.
      apply toString_greeting_id. now apply eqb_eq. }
  now rewrite Hhist, Hctx.
Qed.

(** How one event moves the socket: it stays as it is, possibly with one
    more payload on an open wire; it is created; it opens, the priming
    envelope going out when there is a context; or it starts or ends
    closing. *)
Lemma step_socket (s : State) ev s' :
  step s ev = inr s' ->
  (Chatbot.readyState s' = Chatbot.readyState s
   /\ (Chatbot.sent s' = Chatbot.sent s
       \/ Chatbot.readyState s = Some WebSocket.OPEN
          /\ exists p, Chatbot.sent s'
                       = Chatbot.sent s ++ [Wire.JSON_stringify p]))
  \/ ((Chatbot.wsRef s = None \/ left_open s)
      /\ Chatbot.readyState s' = Some WebSocket.CONNECTING
      /\ Chatbot.sent s' = [])
  \/ (ev = Chatbot.Open
      /\ Chatbot.readyState s = Some WebSocket.CONNECTING
      /\ Chatbot.readyState s' = Some WebSocket.OPEN
      /\ Chatbot.transcript s' = Chatbot.transcript s
      /\ Chatbot.sent s'
         = Chatbot.sent s
           ++ match Chatbot.applicationContext s with
              | Some c => [Wire.JSON_stringify (Chatbot.initialPayload c)]
              | None => []
              end)
  \/ (left_open s' /\ Chatbot.sent s' = Chatbot.sent s).
Proof.
  intros H. apply step_has_shape in H.
  assert (D : Chatbot.readyState s = Some WebSocket.OPEN
              \/ Chatbot.readyState s <> Some WebSocket.OPEN)
    by (destruct (Chatbot.readyState s) as [[]|]; auto; right; discriminate).
  destruct H as [ev|W|ws s' W R H|ws data now date W R|ws W|ws W|
                 |e now date s' B H|value now date s' B H].
  - left. auto.
  - right; left. repeat split. exact W.
  - right; right; left.
    rewrite onopen_established in H. injection H as <-.
    unfold Chatbot.sent, Chatbot.readyState. rewrite W. cbn. rewrite R.
    auto.
  - left.
    assert (E : Chatbot.wsRef (Chatbot.onmessage data now date s)
                = Chatbot.wsRef s)
      by (unfold Chatbot.onmessage; now destruct (negb _)).
    unfold Chatbot.sent, Chatbot.readyState. rewrite E. auto.
  - right; right; right.
    unfold left_open, Chatbot.sent, Chatbot.readyState. rewrite W. cbn. auto.
  - unfold left_open, Chatbot.sent, Chatbot.readyState. rewrite W. cbn.
    unfold WebSocket.close.
    destruct (WebSocket.readyState ws) eqn:R; cbn; rewrite ?R; auto 6.
  - left. auto.
  - left. apply handleSendMessage_result in H as (_ & _ & _ & Ho & Hn).
    destruct D as [D|D].
    + destruct (Ho D) as [R' E]. split; [congruence|].
      right. split; [assumption|]. eexists. exact E.
    + unfold Chatbot.sent, Chatbot.readyState. rewrite (Hn D). auto.
  - left. apply handleSendMessage_result in H as (_ & _ & _ & Ho & Hn).
    destruct D as [D|D].
    + destruct (Ho D) as [R' E]. split; [congruence|].
      right. split; [assumption|]. eexists. exact E.
    + unfold Chatbot.sent, Chatbot.readyState. rewrite (Hn D). auto.
Qed.

Lemma primed_step (s : State) ev s' :
  primed s -> step s ev = inr s' -> primed s'.
Proof.
  intros [Hpre Hopen] Hstep.
  pose proof (step_context s ev s' Hstep) as Hc.
  destruct (step_socket s ev s' Hstep)
    as [[R [E|[O [p E]]]]|[(W & R & E)|[(_ & R & R' & _ & E)|[L E]]]];
    unfold primed; rewrite ?R, ?R', ?E, ?Hc.
  - split; assumption.
  - split.
    + rewrite O. intros [?|?]; discriminate.
    + intros _ c Hctx. destruct (Hopen O c Hctx) as [rest ->].
      eexists. reflexivity.
  - split; [reflexivity|discriminate].
  - split; [intros [?|?]; discriminate|].
    intros _ c Hctx. rewrite Hctx, Hpre by auto.
    eexists. reflexivity.
  - destruct L as [L|L]; rewrite L;
      (split; [intros [?|?]; discriminate|discriminate]).
Qed.

Lemma primed_run ctx date0 evs (s : State) :
  run (Chatbot.mount number_toString ctx date0) evs = inr s -> primed s.
Proof.
  intros Hrun.
  refine (run_invariant primed (fun _ => True) _ evs _ s _ _ Hrun).
  - intros x ev x' Hx _. now apply primed_step.
  - split; [reflexivity|discriminate].
  - clear. induction evs; constructor; auto.
Qed.

(** C3.  In every reachable state whose socket is still connecting, nothing
    has been sent, and the open event sends exactly the priming envelope when
    a context was supplied and nothing when none was; once the socket is
    open, the priming envelope heads everything sent. *)
Theorem priming_envelope_sent_once_on_open ctx date0 evs (s : State) :
  run (Chatbot.mount number_toString ctx date0) evs = inr s ->
  (Chatbot.readyState s = Some WebSocket.CONNECTING ->
   Chatbot.sent s = []
   /\ exists s',
        step s Chatbot.Open = inr s'
        /\ Chatbot.readyState s' = Some WebSocket.OPEN
        /\ Chatbot.transcript s' = Chatbot.transcript s
        /\ Chatbot.sent s'
           = match ctx with
             | Some c =>
                 [Wire.JSON_stringify
                    (Wire.mkPayload
                       (str "Initialize conversation with application context")
                       [] (Some c))]
             | None => []
             end)
  /\ (Chatbot.readyState s = Some WebSocket.OPEN ->
      forall c, ctx = Some c ->
      exists rest,
        Chatbot.sent s
        = Wire.JSON_stringify
            (Wire.mkPayload
               (str "Initialize conversation with application context")
               [] (Some c)) :: rest).
Proof.
  intros Hrun.
  destruct (primed_run ctx date0 evs s Hrun) as [Hpre Hopen].
  pose proof (run_context _ _ _ Hrun) as Hctx. cbn in Hctx.
  split.
  - intros R. split; [auto|].
    pose proof (Hpre (or_intror R)) as E0.
    unfold Chatbot.readyState, Chatbot.sent in *.
    destruct (Chatbot.wsRef s) as [ws|] eqn:W; [|discriminate].
    injection R as R. cbn in E0.
    eexists. cbn. rewrite W, R, onopen_established.
    split; [reflexivity|]. cbn. rewrite E0, Hctx.
    repeat split.
  - intros R c ->. apply Hopen; assumption.
Qed.

(** C4.  In both variants of the component a ["connected"] frame leaves the
    state as it is, and any other frame appends exactly one assistant
    message; in [chatbot.tsx] it holds the frame's text. *)
Theorem sentinel_appends_nothing_other_frames_one
    (s : State) (f : FallbackChatbot.State number) data now date :
  Chatbot.onmessage (str "connected") now date s = s
  /\ FallbackChatbot.onmessage (str "connected") now date f = f
  /\ (data <> str "connected" ->
      Chatbot.transcript (Chatbot.onmessage data now date s)
      = Chatbot.transcript s
        ++ [Message.mk (JsString.toString now) data assistant date]
      /\ exists m,
           FallbackChatbot.transcript (FallbackChatbot.onmessage data now date f)
           = FallbackChatbot.transcript f ++ [m]
           /\ Message.role m = assistant)
  /\ (Chatbot.readyState s = Some WebSocket.OPEN ->
      step s (Chatbot.Incoming data now date)
      = inr (Chatbot.onmessage data now date s)).
Proof.
  split; [reflexivity|]. split; [reflexivity|]. split.
  - intros H. apply eqb_neq in H. split.
    + unfold Chatbot.onmessage. now rewrite H.
    + unfold FallbackChatbot.onmessage. rewrite H. cbn.
      eexists. split; reflexivity.
  - unfold Chatbot.readyState. cbn.
    destruct (Chatbot.wsRef s) as [ws|]; [|discriminate].
    cbn. now intros [= ->].
Qed.

Lemma StronglySorted_app_iff {A} (R : A -> A -> Prop) (a b : list A) :
  StronglySorted R (a ++ b)
  <-> StronglySorted R a /\ StronglySorted R b
      /\ forall x y, In x a -> In y b -> R x y.
Proof.
  induction a as [|h a IH]; cbn.
  - split; [intros H; repeat split; [constructor|assumption|intros ? ? []]
           |intros (_ & H & _); exact H].
  - split.
    + intros H. apply StronglySorted_inv in H as [Hs Hh].
      apply IH in Hs as (Ha & Hb & Hab).
      rewrite Forall_app in Hh. destruct Hh as [Hha Hhb].
      repeat split; [constructor; assumption|assumption|].
      intros x y [<-|Hx] Hy; [|now apply Hab].
      rewrite Forall_forall in Hhb. now apply Hhb.
    + intros (Ha & Hb & Hab).
      apply StronglySorted_inv in Ha as [Ha Hha].
      constructor.
      * apply IH. repeat split; auto.
      * apply Forall_app. split; [assumption|].
        apply Forall_forall. intros y Hy. apply Hab; auto.
Qed.

Lemma StronglySorted_drop_middle {A} (R : A -> A -> Prop) (a b c : list A) :
  StronglySorted R (a ++ b ++ c) -> StronglySorted R (a ++ c).
Proof.
  rewrite !StronglySorted_app_iff.
  intros (Ha & (Hb & Hc & _) & Habc). repeat split; auto.
  intros x y Hx Hy. apply Habc; [assumption|].
  apply in_or_app. now right.
Qed.

(** The identifiers of a run are the printed clock readings at which its
    messages were appended. *)
Lemma run_ids evs : forall (s s' : State) ts,
  run s evs = inr s' ->
  map Message.id (Chatbot.transcript s) = map JsString.toString ts ->
  StronglySorted Z.lt (ts ++ flat_map Chatbot.clock evs) ->
  exists ts',
    map Message.id (Chatbot.transcript s') = map JsString.toString ts'
    /\ StronglySorted Z.lt ts'.
Proof.
  induction evs as [|ev evs IH]; intros s s' ts; cbn.
  - intros [= <-] Hids Hsorted. rewrite app_nil_r in Hsorted. eauto.
  - destruct (step s ev) as [f|s1] eqn:E; cbn; [discriminate|].
    intros Hrun Hids Hsorted.
    destruct (step_transcript s ev s1 E)
      as [Ht|(m & now & Hc & Ht & Hid & _)].
    + apply (IH s1 s' ts Hrun); [now rewrite Ht|].
      eapply StronglySorted_drop_middle. exact Hsorted.
    + apply (IH s1 s' (ts ++ [now]) Hrun).
      * rewrite Ht, !map_app, Hids. cbn. now rewrite Hid.
      * rewrite Hc in Hsorted. now rewrite <- app_assoc.
Qed.

Lemma sorted_clock_ids ts :
  StronglySorted Z.lt ts ->
  NoDup (map JsString.toString ts)
  /\ StronglySorted id_lt (map JsString.toString ts).
Proof.
  induction 1 as [|t ts Hs [IHn IHm] Ht]; cbn; split; constructor; auto.
  - rewrite in_map_iff. intros (u & Hu & Hin).
    apply toString_inj in Hu. subst u.
    rewrite Forall_forall in Ht. specialize (Ht t Hin). lia.
  - rewrite Forall_map. eapply Forall_impl; [|exact Ht].
    intros u Hu. exists t, u. now rewrite !parseInt_toString.
Qed.

(** C5 (amended).  When the clock readings of the appends strictly increase
    and exceed [1], the identifiers of every reachable transcript are
    pairwise distinct and increase with arrival. *)
Theorem ids_distinct_and_monotonic_under_increasing_clock
    ctx date0 evs (s : State) :
  run (Chatbot.mount number_toString ctx date0) evs = inr s ->
  clock_increasing evs ->
  distinct_ids (Chatbot.transcript s) /\ monotonic_ids (Chatbot.transcript s).
Proof.
  intros Hrun Hclock.
  destruct (run_ids evs _ s [1] Hrun eq_refl Hclock) as (ts & Hids & Hs).
  unfold distinct_ids, monotonic_ids. rewrite Hids.
  now apply sorted_clock_ids.
Qed.

Lemma left_open_run evs : forall s : State,
  left_open s ->
  Forall (fun ev => ev <> Chatbot.Effect) evs ->
  exists s', run s evs = inr s' /\ Chatbot.sent s' = Chatbot.sent s
             /\ Chatbot.discarded s' = Chatbot.discarded s
             /\ left_open s'.
Proof.
  induction evs as [|ev evs IH]; intros s L Hevs; cbn; [eauto|].
  inversion Hevs as [|? ? Hev Hevs']; subst.
  destruct (step_total s ev) as [s1 E]. rewrite E. cbn.
  destruct (step_sent s ev s1 E) as (new & Hs & _ & _ & Hl).
  destruct (Hl L Hev) as [-> L1].
  destruct Hs as [[Heff _]|Hs]; [now elim Hev|].
  rewrite app_nil_r in Hs.
  destruct (step_discarded s ev s1 E) as [Hd|[Heff _]]; [|now elim Hev].
  destruct (IH s1 L1 Hevs') as (s' & Hr & Hs' & Hd' & L'). exists s'.
  repeat split; [assumption|congruence|congruence|assumption].
Qed.

Lemma run_discarded evs : forall s s' : State,
  run s evs = inr s' ->
  Chatbot.discarded s = [] -> Chatbot.discarded s' = [].
Proof.
  induction evs as [|ev evs IH]; intros s s'; cbn.
  - now intros [= <-].
  - destruct (step s ev) as [x|s1] eqn:E; cbn; [discriminate|].
    intros Hrun Hd. apply (IH s1 s' Hrun).
    destruct (step_discarded s ev s1 E) as [->|[_ ->]]; auto.
Qed.

(** C7.  Every send site is guarded.  While the socket is not open,
    [handleSendMessage] (in both variants) and [onopen] complete and leave
    the socket exactly as it is: nothing is transmitted and [send] is not
    called.  No event other than the socket's own [open] puts a frame on the
    wire or calls [send]; a run of the effect can only replace the socket by
    a new one that has sent nothing.  Once the socket has left [OPEN], no
    run changes what it has sent or calls [send] on it, until the effect
    replaces it.  Over a whole session, effect re-runs included, no run ends
    in a throw and [send] is never called on a socket that is not open. *)
Theorem no_send_unless_open
    (s : State) (f : FallbackChatbot.State number) evs :
  Chatbot.readyState s <> Some WebSocket.OPEN ->
  option_map WebSocket.readyState (FallbackChatbot.wsRef f)
  <> Some WebSocket.OPEN ->
  (forall message now date,
     exists s', Chatbot.handleSendMessage message now date s = inr s'
                /\ Chatbot.wsRef s' = Chatbot.wsRef s)
  /\ (forall message now date,
        exists f', FallbackChatbot.handleSendMessage message now date f = inr f'
                   /\ FallbackChatbot.wsRef f' = FallbackChatbot.wsRef f)
  /\ (forall ws, Chatbot.wsRef s = Some ws -> Chatbot.onopen ws s = inr s)
  /\ (forall ev, ev <> Chatbot.Open ->
        exists s', step s ev = inr s'
                   /\ (Chatbot.sent s' = Chatbot.sent s
                       /\ Chatbot.discarded s' = Chatbot.discarded s
                       \/ ev = Chatbot.Effect
                          /\ Chatbot.sent s' = []
                          /\ Chatbot.discarded s' = []))
  /\ (left_open s -> Forall (fun ev => ev <> Chatbot.Effect) evs ->
      exists s', run s evs = inr s'
                 /\ Chatbot.sent s' = Chatbot.sent s
                 /\ Chatbot.discarded s' = Chatbot.discarded s
                 /\ left_open s')
  /\ exists s', run s evs = inr s'
                /\ (Chatbot.discarded s = [] -> Chatbot.discarded s' = []).
Proof.
  intros Hs Hf. split; [|split; [|split; [|split; [|split]]]].
  - intros message now date.
    destruct (handleSendMessage_inr message now date s) as (s' & E & _).
    exists s'. split; [assumption|].
    now apply handleSendMessage_result in E as (_ & _ & _ & _ & ->).
  - intros message now date.
    unfold FallbackChatbot.handleSendMessage. cbn.
    destruct (FallbackChatbot.wsRef f) as [ws|] eqn:W; [|eauto].
    cbn in Hf.
    destruct (WebSocket.readyState ws) eqn:R; cbn;
      try (eexists; split; [reflexivity|cbn; assumption]).
    now elim Hf.
  - intros ws W. unfold Chatbot.onopen, Chatbot.readyState in *.
    rewrite W in Hs. cbn in Hs.
    destruct (Chatbot.applicationContext s); [|reflexivity].
    destruct (WebSocket.readyState ws); try reflexivity. now elim Hs.
  - intros ev Hev. destruct (step_total s ev) as [s' E]. exists s'.
    split; [assumption|].
    assert (D : ev = Chatbot.Effect \/ ev <> Chatbot.Effect)
      by (destruct ev; auto; right; discriminate).
    destruct D as [->|Heff].
    + cbn in E. unfold Chatbot.sent, Chatbot.discarded.
      destruct (Chatbot.wsRef s) as [ws|] eqn:W;
        [destruct (WebSocket.readyState ws)|]; injection E as <-; cbn;
        rewrite ?W; auto.
    + left.
      destruct (step_sent s ev s' E) as (new & Hnew & _ & Hn & _).
      destruct (step_discarded s ev s' E) as [Hd|[He _]]; [|now elim Heff].
      destruct Hnew as [[He _]|Hnew]; [now elim Heff|].
      split; [|assumption]. now rewrite Hnew, (Hn Hs Hev), app_nil_r.
  - apply left_open_run.
  - destruct (run_total evs s) as [s' Hrun]. exists s'.
    split; [assumption|]. now apply (run_discarded evs s s').
Qed.

Lemma handleSendMessage_retag c' message now date (s s' : State) :
  Chatbot.handleSendMessage message now date s = inr s' ->
  Chatbot.handleSendMessage message now date (retag c' s)
  = inr (retag c' s').
Proof.
  unfold Chatbot.handleSendMessage, Chatbot.setMessages, Chatbot.set_ws,
    retag, retag_ws. cbn.
  destruct (Chatbot.wsRef s) as [ws|]; cbn; [|now intros [= <-]].
  unfold WebSocket.send.
  destruct (WebSocket.readyState ws) eqn:R; cbn; intros [= <-]; cbn;
    rewrite ?R, ?map_app; reflexivity.
Qed.

(** A step does not look into the context record: around another record it
    does the same, carrying the other record. *)
Lemma step_retag c c' (s s' : State) ev :
  Chatbot.applicationContext s = Some c ->
  step s ev = inr s' -> step (retag c' s) ev = inr (retag c' s').
Proof.
  intros Hc. destruct ev; cbn.
  - destruct (Chatbot.wsRef s) as [ws|]; cbn; [|now intros [= <-]].
    destruct (WebSocket.readyState ws) eqn:R; cbn; now intros [= <-].
  - destruct (Chatbot.wsRef s) as [ws|]; cbn; [|now intros [= <-]].
    destruct (WebSocket.readyState ws) eqn:R; cbn;
      try (now intros [= <-]).
    unfold Chatbot.onopen. cbn. rewrite Hc.
    intros [= <-]. unfold retag, retag_ws. cbn. now rewrite map_app.
  - destruct (Chatbot.wsRef s) as [ws|]; cbn; [|now intros [= <-]].
    destruct (WebSocket.readyState ws); intros [= <-]; try reflexivity.
    unfold Chatbot.onmessage. now destruct (negb _).
  - now intros [= <-].
  - destruct (Chatbot.wsRef s); cbn; now intros [= <-].
  - destruct (Chatbot.wsRef s) as [ws|]; cbn; [|now intros [= <-]].
    intros [= <-]. unfold retag, retag_ws, WebSocket.close. cbn.
    destruct (WebSocket.readyState ws) eqn:R; cbn; rewrite ?R; reflexivity.
  - now intros [= <-].
  - unfold ChatInput.handleKeyPress.
    destruct (_ && _); [|now intros [= <-]].
    destruct (JsString.truthy _); [|now intros [= <-]].
    destruct (Chatbot.handleSendMessage _ _ _ s) as [x|s1] eqn:E; cbn;
      intros [= <-].
    now rewrite (handleSendMessage_retag c' _ _ _ _ _ E).
  - unfold ChatInput.handleSendClick.
    destruct textarea as [value|]; [|now intros [= <-]].
    destruct (JsString.truthy _); [|now intros [= <-]].
    destruct (Chatbot.handleSendMessage _ _ _ s) as [x|s1] eqn:E; cbn;
      intros [= <-].
    now rewrite (handleSendMessage_retag c' _ _ _ _ _ E).
Qed.

Lemma run_retag c c' evs : forall s s' : State,
  Chatbot.applicationContext s = Some c ->
  run s evs = inr s' -> run (retag c' s) evs = inr (retag c' s').
Proof.
  induction evs as [|ev evs IH]; intros s s' Hc; cbn.
  - now intros [= <-].
  - destruct (step s ev) as [x|s1] eqn:E; cbn; [discriminate|].
    intros H. rewrite (step_retag c c' s s1 ev Hc E). cbn.
    apply IH; [|assumption]. now rewrite (step_context s ev s1 E).
Qed.

Lemma run_sent_context evs : forall s s' : State,
  run s evs = inr s' ->
  Forall (fun fr => exists p, fr = Wire.JSON_stringify p
                     /\ Wire.context p = Chatbot.applicationContext s)
    (Chatbot.sent s) ->
  Forall (fun fr => exists p, fr = Wire.JSON_stringify p
                     /\ Wire.context p = Chatbot.applicationContext s)
    (Chatbot.sent s').
Proof.
  induction evs as [|ev evs IH]; intros s s'; cbn.
  - now intros [= <-].
  - destruct (step s ev) as [x|s1] eqn:E; cbn; [discriminate|].
    intros H Hs.
    destruct (step_sent s ev s1 E) as (new & Hnew & Hall & _).
    rewrite <- (step_context s ev s1 E). apply (IH s1 s' H).
    rewrite (step_context s ev s1 E).
    destruct Hnew as [[_ ->]| ->]; [constructor|].
    apply Forall_app. now split.
Qed.

(** C8.  Through any run the prop stays the context the session was mounted
    with, every frame on the wire is a payload carrying exactly it, and the
    run does not depend on what the record holds: around any other record
    the same events give the same states, carrying that record. *)
Theorem context_passed_through_unchanged ctx date0 evs (s : State) :
  run (Chatbot.mount number_toString ctx date0) evs = inr s ->
  Chatbot.applicationContext s = ctx
  /\ Forall (fun fr => exists p, fr = Wire.JSON_stringify p
                        /\ Wire.context p = ctx) (Chatbot.sent s)
  /\ (forall c c', ctx = Some c ->
        run (retag c' (Chatbot.mount number_toString ctx date0)) evs
        = inr (retag c' s)).
Proof.
  intros Hrun. split; [|split].
  - exact (run_context _ _ _ Hrun).
  - apply (run_sent_context evs _ s Hrun). constructor.
  - intros c c' ->. now apply (run_retag c c').
Qed.

(** C2 (amended).  From a freshly mounted, context-free component whose
    socket has opened, sending ["Hi"] at a clock reading other than [1] puts
    exactly
    [{message: "Hi", history: [{role: "user", content: "Hi"}], context: undefined}]
    on the wire, the new message being part of its own history, and the
    reply ["Hello, how can I help?"] is appended as an assistant message
    with exactly that text. *)
Theorem hi_payload_carries_hi_and_reply_is_appended
    date0 now date now' date' :
  now <> 1 ->
  exists s0 s1,
    run (Chatbot.mount number_toString None date0)
      [Chatbot.Effect; Chatbot.Open] = inr s0
    /\ Chatbot.sent s0 = []
    /\ Chatbot.handleSendMessage (str "Hi") now date s0 = inr s1
    /\ Chatbot.sent s1
       = [Wire.JSON_stringify
            (Wire.mkPayload (str "Hi") [Wire.mkEntry user (str "Hi")] None)]
    /\ step s1 (Chatbot.Incoming (str "Hello, how can I help?") now' date')
       = inr (Chatbot.onmessage (str "Hello, how can I help?") now' date' s1)
    /\ Chatbot.transcript
         (Chatbot.onmessage (str "Hello, how can I help?") now' date' s1)
       = [Chatbot.greeting number_toString None date0;
          Message.mk (JsString.toString now) (str "Hi") user date;
          Message.mk (JsString.toString now')
            (str "Hello, how can I help?") assistant date'].
Proof.
  intros Hnow.
  assert (E : JsString.eqb (JsString.toString now) (str "1") = false).
  { apply eqb_neq. intros H. apply Hnow.
    apply toString_greeting_id. now apply eqb_eq. }
  eexists. eexists.
  split; [reflexivity|]. split; [reflexivity|].
  split; [reflexivity|]. split.
  - unfold Chatbot.sent, Chatbot.conversationHistory, Chatbot.userMessage.
    cbn in *. now rewrite E.
  - split; reflexivity.
Qed.

Lemma nonblank_run ctx date0 evs (s : State) :
  run (Chatbot.mount number_toString ctx date0) evs = inr s ->
  Forall (fun m => ~ whitespace_only m) (Chatbot.transcript s).
Proof.
  intros Hrun.
  refine (run_invariant
            (fun x => Forall (fun m => ~ whitespace_only m)
                        (Chatbot.transcript x))
            (fun _ => True) _ evs _ s _ _ Hrun).
  - intros x ev x' Hx _ Hstep.
    destruct (step_transcript x ev x' Hstep)
      as [->|(m & now & _ & -> & _ & Hm)]; [assumption|].
    apply Forall_app. split; [assumption|].
    constructor; [|constructor].
    intros [Hrole Htrim]. apply trim_nil in Htrim.
    rewrite (Hm Hrole) in Htrim. discriminate.
  - cbn. constructor; [|constructor]. intros [Hrole _]. discriminate.
  - clear. induction evs; constructor; auto.
Qed.

(** C9.  On Enter without Shift, and on a click that finds a textarea,
    [onSend] runs exactly when the value has something left after trimming,
    and it runs on the value as typed; otherwise (and on any other key, or
    when the click finds no textarea) the handler completes without it.  So
    no reachable transcript holds a user message that is white space only. *)
Theorem chat_input_sends_only_nonblank
    {S : Type} (onSend : jsstring -> S -> Result S) (st : S)
    (e : ChatInput.KeyboardEvent) (value : jsstring)
    ctx date0 evs (s : State) :
  (ChatInput.key e = str "Enter" -> ChatInput.shiftKey e = false ->
   (JsString.trim (ChatInput.target_value e) <> [] ->
    ChatInput.handleKeyPress onSend e st
    = (st' <- onSend (ChatInput.target_value e) st ;;
       ret (ChatInput.mkKeyOutcome st' (str "") true)))
   /\ (JsString.trim (ChatInput.target_value e) = [] ->
       ChatInput.handleKeyPress onSend e st
       = ret (ChatInput.mkKeyOutcome st (ChatInput.target_value e) true)))
  /\ (ChatInput.key e <> str "Enter" \/ ChatInput.shiftKey e = true ->
      ChatInput.handleKeyPress onSend e st
      = ret (ChatInput.mkKeyOutcome st (ChatInput.target_value e) false))
  /\ ChatInput.handleSendClick onSend None st
     = ret (ChatInput.mkClickOutcome st None)
  /\ ((JsString.trim value <> [] ->
       ChatInput.handleSendClick onSend (Some value) st
       = (st' <- onSend value st ;;
          ret (ChatInput.mkClickOutcome st' (Some (str "")))))
      /\ (JsString.trim value = [] ->
          ChatInput.handleSendClick onSend (Some value) st
          = ret (ChatInput.mkClickOutcome st (Some value))))
  /\ (run (Chatbot.mount number_toString ctx date0) evs = inr s ->
      Forall (fun m => ~ whitespace_only m) (Chatbot.transcript s)).
Proof.
  split; [|split; [|split; [reflexivity|split]]].
  - intros Hkey Hshift. unfold ChatInput.handleKeyPress.
    rewrite Hkey, Hshift. cbn [JsString.eqb negb andb].
    change (JsString.eqb (str "Enter") (str "Enter")) with true.
    cbn iota.
    split; intros H.
    + destruct (JsString.trim (ChatInput.target_value e));
        [now elim H|reflexivity].
    + now rewrite H.
  - unfold ChatInput.handleKeyPress. intros [Hkey|Hshift].
    + apply eqb_neq in Hkey. now rewrite Hkey.
    + rewrite Hshift. now rewrite andb_false_r.
  - unfold ChatInput.handleSendClick. split; intros H.
    + destruct (JsString.trim value); [now elim H|reflexivity].
    + now rewrite H.
  - apply nonblank_run.
Qed.

End ChatbotFacts.

(** C10.  In the context-free variant a frame other than ["connected"] is
    appended as an assistant message whose text is the frame's with the six
    code units of the first ["echo: "] cut out, and the frame's own text when
    it holds no ["echo: "]. *)
Theorem fallback_strips_first_echo
    {number} (f : FallbackChatbot.State number) data now date i :
  data <> str "connected" ->
  first_occurrence (str "echo: ") data i ->
  FallbackChatbot.transcript (FallbackChatbot.onmessage data now date f)
  = FallbackChatbot.transcript f
    ++ [Message.mk (JsString.toString now)
          match i with Some k => cut k 6 data | None => data end
          assistant date].
Proof.
  intros Hdata Hi. apply eqb_neq in Hdata.
  unfold FallbackChatbot.onmessage. rewrite Hdata. cbn.
  do 3 f_equal. destruct i as [k|].
  - now rewrite (replace_at_first _ _ _ k Hi).
  - now apply replace_absent.
Qed.

(** C6 (what the code does).  [apiConfig.endpoints.chatWs] builds the
    address the claim describes, but the effect hands the builder itself to
    the constructor: the socket's address argument is that function, for no
    application identifier the string the builder would make. *)
Theorem websocket_constructor_receives_url_builder
    {number} (number_toString : number -> jsstring) env
    (ctx : option (ApplicationContext.t number)) date0 applicationId :
  ApiConfig.chatWs (ApiConfig.endpoints (ApiConfig.apiConfig env))
    applicationId
  = ApiConfig.wsUrl (ApiConfig.apiConfig env)
    ++ str "/ws/chat/" ++ applicationId
  /\ exists ws,
       Chatbot.wsRef
         (Chatbot.useEffect (ApiConfig.apiConfig env)
            (Chatbot.mount number_toString ctx date0))
       = Some ws
       /\ WebSocket.url ws
          = WebSocket.UrlFunction
              (ApiConfig.chatWs (ApiConfig.endpoints (ApiConfig.apiConfig env)))
       /\ WebSocket.url ws
          <> WebSocket.UrlString
               (ApiConfig.chatWs
                  (ApiConfig.endpoints (ApiConfig.apiConfig env))
                  applicationId).
Proof.
  split; [reflexivity|].
  eexists. split; [reflexivity|]. split; [reflexivity|discriminate].
Qed.

(* ===================================================================== *)
(** ** On the concrete session *)
(* ===================================================================== *)

(** After one turn, sending ["Thanks"]: the history holds the earlier user
    message, the reply and then the new message. *)
Lemma history_after_one_turn :
  exists rest s',
    Chatbot.transcript (Demo.after None Demo.one_turn)
    = Chatbot.greeting JsString.toString None 0 :: rest
    /\ Chatbot.handleSendMessage (str "Thanks") 1700000001000 1700000001000
         (Demo.after None Demo.one_turn) = inr s'
    /\ Chatbot.sent s'
       = Chatbot.sent (Demo.after None Demo.one_turn)
         ++ [Wire.JSON_stringify
               (Wire.mkPayload (str "Thanks")
                  (map Chatbot.to_entry rest
                   ++ [Wire.mkEntry user (str "Thanks")]) None)].
Proof.
  apply (history_is_prior_turns_then_new_message JsString.toString
           Demo.config None 0 Demo.one_turn).
  - reflexivity.
  - unfold clock_avoids_greeting. repeat constructor; lia.
  - lia.
  - reflexivity.
  - reflexivity.
Defined.

(** C1, as the claim has it.  A send reads the [messages] of the last
    render: after a turn that has not been rendered yet, the history holds
    the new message alone, not the two messages before it.  And a send at
    the clock reading [1] bears the greeting's identifier: the filter drops
    the new message from its own history. *)
Lemma history_misses_unrendered_turns :
  (exists s rest s',
     Chatbot.run Demo.config (Chatbot.mount JsString.toString None 0)
       Demo.unrendered_turn = inr s
     /\ Chatbot.readyState s = Some WebSocket.OPEN
     /\ Chatbot.transcript s = Chatbot.greeting JsString.toString None 0 :: rest
     /\ List.length rest = 2%nat
     /\ Chatbot.handleSendMessage (str "Thanks") 1700000001000 1700000001000 s
        = inr s'
     /\ Chatbot.sent s'
        = Chatbot.sent s
          ++ [Wire.JSON_stringify
                (Wire.mkPayload (str "Thanks")
                   [Wire.mkEntry user (str "Thanks")] None)]
     /\ Chatbot.sent s'
        <> Chatbot.sent s
           ++ [Wire.JSON_stringify
                 (Wire.mkPayload (str "Thanks")
                    (map Chatbot.to_entry rest
                     ++ [Wire.mkEntry user (str "Thanks")]) None)])
  /\ (exists s rest s',
        Chatbot.run Demo.config (Chatbot.mount JsString.toString None 0)
          Demo.one_turn = inr s
        /\ Chatbot.messages s = Chatbot.transcript s
        /\ Chatbot.readyState s = Some WebSocket.OPEN
        /\ Chatbot.transcript s
           = Chatbot.greeting JsString.toString None 0 :: rest
        /\ Chatbot.handleSendMessage (str "Thanks") 1 1 s = inr s'
        /\ Chatbot.sent s'
           = Chatbot.sent s
             ++ [Wire.JSON_stringify
                   (Wire.mkPayload (str "Thanks")
                      (map Chatbot.to_entry rest) None)]
        /\ Chatbot.sent s'
           <> Chatbot.sent s
              ++ [Wire.JSON_stringify
                    (Wire.mkPayload (str "Thanks")
                       (map Chatbot.to_entry rest
                        ++ [Wire.mkEntry user (str "Thanks")]) None)]).
Proof.
  split.
  - eexists. eexists. eexists.
    split; [reflexivity|]. split; [reflexivity|]. split; [reflexivity|].
    split; [reflexivity|]. split; [reflexivity|]. split; [reflexivity|].
    vm_compute. discriminate.
  - eexists. eexists. eexists.
    split; [reflexivity|]. split; [reflexivity|]. split; [reflexivity|].
    split; [reflexivity|]. split; [reflexivity|]. split; [reflexivity|].
    vm_compute. discriminate.
Qed.

(** C2, as the claim has it: the history of the first payload is not empty. *)
Lemma hi_payload_history_is_not_empty :
  exists s0 s1,
    Chatbot.run Demo.config (Chatbot.mount JsString.toString None 0)
      [Chatbot.Effect; Chatbot.Open] = inr s0
    /\ Chatbot.handleSendMessage (str "Hi") 1700000000000 1700000000000 s0
       = inr s1
    /\ Chatbot.sent s1
       <> [Wire.JSON_stringify (Wire.mkPayload (str "Hi") [] None)].
Proof.
  eexists. eexists. split; [reflexivity|]. split; [reflexivity|].
  vm_compute. discriminate.
Qed.

Lemma hi_payload_at_a_real_clock :
  1700000000000 <> 1
  /\ exists s0 s1,
       Chatbot.run Demo.config (Chatbot.mount JsString.toString None 0)
         [Chatbot.Effect; Chatbot.Open] = inr s0
       /\ Chatbot.sent s0 = []
       /\ Chatbot.handleSendMessage (str "Hi") 1700000000000 1700000000000 s0
          = inr s1
       /\ Chatbot.sent s1
          = [Wire.JSON_stringify
               (Wire.mkPayload (str "Hi") [Wire.mkEntry user (str "Hi")] None)]
       /\ Chatbot.step Demo.config s1
            (Chatbot.Incoming (str "Hello, how can I help?")
               1700000000500 1700000000500)
          = inr (Chatbot.onmessage (str "Hello, how can I help?")
                   1700000000500 1700000000500 s1)
       /\ Chatbot.transcript
            (Chatbot.onmessage (str "Hello, how can I help?")
               1700000000500 1700000000500 s1)
          = [Chatbot.greeting JsString.toString None 0;
             Message.mk (JsString.toString 1700000000000) (str "Hi") user
               1700000000000;
             Message.mk (JsString.toString 1700000000500)
               (str "Hello, how can I help?") assistant 1700000000500].
Proof.
  split; [lia|].
  apply (hi_payload_carries_hi_and_reply_is_appended JsString.toString
           Demo.config 0 1700000000000 1700000000000
           1700000000500 1700000000500).
  lia.
Defined.

(** With Ana's context: nothing is sent while connecting, the open event
    sends the priming envelope, and it heads the wire after a turn. *)
Lemma priming_envelope_for_ana :
  (Chatbot.sent (Demo.after (Some Demo.ana) [Chatbot.Effect]) = []
   /\ exists s',
        Chatbot.step Demo.config (Demo.after (Some Demo.ana) [Chatbot.Effect])
          Chatbot.Open = inr s'
        /\ Chatbot.readyState s' = Some WebSocket.OPEN
        /\ Chatbot.transcript s'
           = Chatbot.transcript (Demo.after (Some Demo.ana) [Chatbot.Effect])
        /\ Chatbot.sent s'
           = [Wire.JSON_stringify
                (Wire.mkPayload
                   (str "Initialize conversation with application context")
                   [] (Some Demo.ana))])
  /\ exists rest,
       Chatbot.sent (Demo.after (Some Demo.ana) Demo.one_turn)
       = Wire.JSON_stringify
           (Wire.mkPayload
              (str "Initialize conversation with application context")
              [] (Some Demo.ana)) :: rest.
Proof.
  split.
  - apply (proj1 (priming_envelope_sent_once_on_open JsString.toString
                    Demo.config (Some Demo.ana) 0 [Chatbot.Effect]
                    (Demo.after (Some Demo.ana) [Chatbot.Effect]) eq_refl)).
    reflexivity.
  - apply (proj2 (priming_envelope_sent_once_on_open JsString.toString
                    Demo.config (Some Demo.ana) 0 Demo.one_turn
                    (Demo.after (Some Demo.ana) Demo.one_turn) eq_refl)
             eq_refl Demo.ana eq_refl).
Defined.

Lemma reply_frame_appends_one_message :
  str "Hello, how can I help?" <> str "connected"
  /\ Chatbot.transcript
       (Chatbot.onmessage (str "Hello, how can I help?")
          1700000000500 1700000000500 (Demo.after None [Chatbot.Effect; Chatbot.Open]))
     = Chatbot.transcript (Demo.after None [Chatbot.Effect; Chatbot.Open])
       ++ [Message.mk (JsString.toString 1700000000500)
             (str "Hello, how can I help?") assistant 1700000000500].
Proof.
  assert (H : str "Hello, how can I help?" <> str "connected")
    by discriminate.
  split; [exact H|].
  exact (proj1 (proj1 (proj2 (proj2
           (sentinel_appends_nothing_other_frames_one Demo.config
              (Demo.after None [Chatbot.Effect; Chatbot.Open])
              (FallbackChatbot.mount (number := Z) 0)
              (str "Hello, how can I help?") 1700000000500 1700000000500)))
           H)).
Defined.

(** C5, as the claim has it: two frames of one millisecond share an
    identifier. *)
Lemma same_tick_frames_share_an_id :
  exists s,
    Chatbot.run Demo.config (Chatbot.mount JsString.toString None 0)
      Demo.same_tick = inr s
    /\ ~ (distinct_ids (Chatbot.transcript s)
          /\ monotonic_ids (Chatbot.transcript s)).
Proof.
  eexists. split; [reflexivity|].
  intros [H _]. unfold distinct_ids in H. cbn in H.
  inversion H as [|? ? _ H1]; subst.
  inversion H1 as [|? ? Hin _]; subst.
  apply Hin. now left.
Qed.

Lemma ids_of_one_turn :
  clock_increasing Demo.one_turn
  /\ distinct_ids (Chatbot.transcript (Demo.after None Demo.one_turn))
  /\ monotonic_ids (Chatbot.transcript (Demo.after None Demo.one_turn)).
Proof.
  assert (H : clock_increasing Demo.one_turn)
    by (unfold clock_increasing; cbn; repeat constructor; lia).
  split; [exact H|].
  exact (ids_distinct_and_monotonic_under_increasing_clock JsString.toString
           Demo.config None 0 Demo.one_turn
           (Demo.after None Demo.one_turn) eq_refl H).
Defined.

(** On a closed socket a send completes and leaves the socket alone. *)
Lemma send_on_closed_socket :
  Chatbot.readyState (Demo.after None [Chatbot.Effect; Chatbot.Open; Chatbot.Close])
  <> Some WebSocket.OPEN
  /\ exists s',
       Chatbot.handleSendMessage (str "Hi") 1700000000000 1700000000000
         (Demo.after None [Chatbot.Effect; Chatbot.Open; Chatbot.Close])
       = inr s'
       /\ Chatbot.wsRef s'
          = Chatbot.wsRef
              (Demo.after None [Chatbot.Effect; Chatbot.Open; Chatbot.Close]).
Proof.
  assert (H : Chatbot.readyState
                (Demo.after None [Chatbot.Effect; Chatbot.Open; Chatbot.Close])
              <> Some WebSocket.OPEN) by discriminate.
  assert (F : option_map WebSocket.readyState
                (FallbackChatbot.wsRef (FallbackChatbot.mount (number := Z) 0))
              <> Some WebSocket.OPEN) by discriminate.
  split; [exact H|].
  exact (proj1 (no_send_unless_open Demo.config
                  (Demo.after None [Chatbot.Effect; Chatbot.Open; Chatbot.Close])
                  (FallbackChatbot.mount 0) Demo.one_turn H F)
           (str "Hi") 1700000000000 1700000000000).
Defined.

Lemma context_of_ana_on_every_frame :
  Chatbot.applicationContext (Demo.after (Some Demo.ana) Demo.one_turn)
  = Some Demo.ana
  /\ Forall (fun fr => exists p, fr = Wire.JSON_stringify p
                        /\ Wire.context p = Some Demo.ana)
       (Chatbot.sent (Demo.after (Some Demo.ana) Demo.one_turn)).
Proof.
  pose proof (context_passed_through_unchanged JsString.toString Demo.config
                (Some Demo.ana) 0 Demo.one_turn
                (Demo.after (Some Demo.ana) Demo.one_turn) eq_refl) as H.
  exact (conj (proj1 H) (proj1 (proj2 H))).
Defined.

(** Enter on ["  hello "] calls [onSend] once, with the value as typed. *)
Lemma enter_sends_the_raw_value :
  JsString.trim (str "  hello ") <> []
  /\ ChatInput.handleKeyPress Demo.record (Demo.enter "  hello ") []
     = inr (ChatInput.mkKeyOutcome [str "  hello "] (str "") true).
Proof.
  assert (H : JsString.trim (str "  hello ") <> []) by discriminate.
  split; [exact H|].
  exact (proj1 (proj1 (chat_input_sends_only_nonblank JsString.toString
                         Demo.config Demo.record [] (Demo.enter "  hello ")
                         (str "  hello ") None 0 Demo.one_turn
                         (Demo.after None Demo.one_turn))
                  eq_refl eq_refl) H).
Defined.

Lemma echo_prefix_is_cut_once :
  FallbackChatbot.transcript
    (FallbackChatbot.onmessage (str "say echo: hi echo: x")
       1700000000500 1700000000500 (FallbackChatbot.mount (number := Z) 0))
  = [FallbackChatbot.greeting 0;
     Message.mk (JsString.toString 1700000000500) (str "say hi echo: x")
       assistant 1700000000500]
  /\ FallbackChatbot.transcript
       (FallbackChatbot.onmessage (str "plain")
          1700000000500 1700000000500 (FallbackChatbot.mount (number := Z) 0))
     = [FallbackChatbot.greeting 0;
        Message.mk (JsString.toString 1700000000500) (str "plain")
          assistant 1700000000500].
Proof.
  split.
  - apply (fallback_strips_first_echo (FallbackChatbot.mount 0)
             (str "say echo: hi echo: x") 1700000000500 1700000000500
             (Some 4%nat)).
    + discriminate.
    + split; [reflexivity|].
      intros j Hj. do 4 (destruct j as [|j]; [reflexivity|]). lia.
  - apply (fallback_strips_first_echo (FallbackChatbot.mount 0)
             (str "plain") 1700000000500 1700000000500 None).
    + discriminate.
    + intros j. do 6 (destruct j as [|j]; [reflexivity|]). reflexivity.
Defined.

(* ===================================================================== *)
(** ** Further facts about the chat component *)
(* ===================================================================== *)

Section ChatbotFurther.
Context {number : Type}.
Variable number_toString : number -> jsstring.
Variable apiConfig : ApiConfig.t.

Local Abbreviation State := (Chatbot.State number).
Local Abbreviation step := (Chatbot.step apiConfig).
Local Abbreviation run := (Chatbot.run apiConfig).
Local Abbreviation turn_payload message now date s :=
  (Wire.mkPayload message
     (Chatbot.conversationHistory (Chatbot.messages s)
        (Chatbot.userMessage message now date))
     (Chatbot.applicationContext s)).
Local Abbreviation priming s :=
  (match Chatbot.applicationContext s with
   | Some c => [Wire.JSON_stringify (Chatbot.initialPayload c)]
   | None => []
   end).

Lemma run_cons (s : State) ev evs s' :
  run s (ev :: evs) = inr s' <->
  exists s1, step s ev = inr s1 /\ run s1 evs = inr s'.
Proof.
  cbn. destruct (step s ev) as [x|s1]; cbn; split.
  - discriminate.
  - intros (s1 & H & _). discriminate.
  - eauto.
  - now intros (s2 & [= ->] & H).
Qed.

(** What a run appends to the transcript: messages named after clock
    readings of its events. *)
Lemma run_transcript_grows evs : forall s s' : State,
  run s evs = inr s' ->
  exists suffix,
    Chatbot.transcript s' = Chatbot.transcript s ++ suffix
    /\ Forall (fun m => exists now, In now (flat_map Chatbot.clock evs)
                                    /\ Message.id m = JsString.toString now)
         suffix.
Proof.
  induction evs as [|ev evs IH]; intros s s'.
  - cbn. intros [= <-]. exists []. now rewrite app_nil_r.
  - intros H. apply run_cons in H as (s1 & Hstep & Hrun).
    destruct (IH s1 s' Hrun) as (suffix & Ht & Hall).
    assert (Hweak : Forall (fun m => exists now,
                       In now (flat_map Chatbot.clock (ev :: evs))
                       /\ Message.id m = JsString.toString now) suffix).
    { eapply Forall_impl; [|exact Hall].
      intros m (now & Hin & Hid). exists now. split; [|assumption].
      cbn. apply in_or_app. now right. }
    destruct (step_transcript apiConfig s ev s1 Hstep)
      as [E|(m & now & Hc & E & Hid & _)].
    + exists suffix. split; [congruence|assumption].
    + exists (m :: suffix). split.
      * rewrite Ht, E, <- app_assoc. reflexivity.
      * constructor; [|assumption].
        exists now. split; [|assumption].
        cbn. rewrite Hc. now left.
Qed.

(** X1.  Whatever happens, a run completes and only appends to the
    transcript: what was shown stays, in place, and every added message is
    named after a clock reading of the run. *)
Theorem transcript_is_append_only evs (s : State) :
  exists s' suffix,
    run s evs = inr s'
    /\ Chatbot.transcript s' = Chatbot.transcript s ++ suffix
    /\ Forall (fun m => exists now, In now (flat_map Chatbot.clock evs)
                                    /\ Message.id m = JsString.toString now)
         suffix.
Proof.
  destruct (run_total apiConfig evs s) as [s' Hrun].
  destruct (run_transcript_grows evs s s' Hrun) as (suffix & Ht & Hall).
  exists s', suffix. auto.
Qed.

(** Only a re-render moves the snapshot the closures read. *)
Lemma step_messages (s : State) ev s' :
  step s ev = inr s' ->
  Chatbot.messages s' = Chatbot.messages s
  \/ Chatbot.messages s' = Chatbot.transcript s
     /\ Chatbot.transcript s' = Chatbot.transcript s.
Proof.
  intros H. apply step_has_shape in H.
  destruct H as [ev|W|ws s' W R H|ws data now date W R|ws W|ws W|
                 |e now date s' B H|value now date s' B H];
    try (left; reflexivity).
  - rewrite onopen_established in H. injection H as <-. now left.
  - left. unfold Chatbot.onmessage. now destruct (negb _).
  - right. split; reflexivity.
  - left. now apply handleSendMessage_result in H.
  - left. now apply handleSendMessage_result in H.
Qed.

Lemma snapshot_lags_step (s : State) ev s' :
  snapshot_lags s -> step s ev = inr s' -> snapshot_lags s'.
Proof.
  intros [suffix Hs] Hstep. unfold snapshot_lags.
  destruct (step_messages s ev s' Hstep) as [Hm|[Hm Ht]].
  - rewrite Hm.
    destruct (step_transcript apiConfig s ev s' Hstep)
      as [E|(m & _ & _ & E & _)]; rewrite E, Hs.
    + now exists suffix.
    + exists (suffix ++ [m]). now rewrite app_assoc.
  - exists []. now rewrite Hm, Ht, app_nil_r.
Qed.

Lemma snapshot_lags_run evs : forall s s' : State,
  snapshot_lags s -> run s evs = inr s' -> snapshot_lags s'.
Proof.
  induction evs as [|ev evs IH]; intros s s' Hs.
  - cbn. now intros [= <-].
  - intros H. apply run_cons in H as (s1 & Hstep & Hrun).
    eapply IH; [|exact Hrun]. eapply snapshot_lags_step; eassumption.
Qed.

(** X2.  In every state a mounted component can reach, the [messages] a
    handler reads is a prefix of the transcript: a render can be behind, it
    never shows anything else. *)
Theorem rendered_messages_are_a_prefix ctx date0 evs :
  exists s suffix,
    run (Chatbot.mount number_toString ctx date0) evs = inr s
    /\ Chatbot.transcript s = Chatbot.messages s ++ suffix.
Proof.
  destruct (run_total apiConfig evs (Chatbot.mount number_toString ctx date0))
    as [s Hrun].
  assert (H : snapshot_lags s).
  { eapply snapshot_lags_run; [|exact Hrun]. exists []. reflexivity. }
  destruct H as [suffix H]. exists s, suffix. auto.
Qed.

(** An event other than a run of the effect keeps the socket there is, only
    adds to what it has sent, hands it nothing to discard and only moves it
    forward in its life. *)
Lemma step_keeps_socket (s : State) ev s' :
  step s ev = inr s' ->
  ev <> Chatbot.Effect ->
  (phase (Chatbot.readyState s) <= phase (Chatbot.readyState s'))%nat
  /\ forall ws, Chatbot.wsRef s = Some ws ->
       exists ws' more,
         Chatbot.wsRef s' = Some ws'
         /\ WebSocket.url ws' = WebSocket.url ws
         /\ WebSocket.sent ws' = WebSocket.sent ws ++ more
         /\ WebSocket.discarded ws' = WebSocket.discarded ws.
Proof.
  intros H Heff. apply step_has_shape in H.
  destruct H as [ev|W|ws s' W R H|ws data now date W R|ws W|ws W|
                 |e now date s' B H|value now date s' B H].
  - split; [lia|]. intros ws W. exists ws, []. now rewrite app_nil_r.
  - now elim Heff.
  - rewrite onopen_established in H. injection H as <-.
    unfold Chatbot.readyState. rewrite W. cbn. rewrite R. cbn.
    split; [lia|]. intros ws0 [= <-]. eexists _, _.
    split; [reflexivity|]. repeat split.
  - assert (E : Chatbot.wsRef (Chatbot.onmessage data now date s)
                = Chatbot.wsRef s)
      by (unfold Chatbot.onmessage; now destruct (negb _)).
    unfold Chatbot.readyState. rewrite E. split; [lia|].
    intros ws0 W0. exists ws0, []. now rewrite app_nil_r.
  - unfold Chatbot.readyState. rewrite W. cbn. split.
    + destruct (WebSocket.readyState ws); cbn; lia.
    + intros ws0 [= <-]. eexists _, []. rewrite app_nil_r.
      split; [reflexivity|]. repeat split.
  - unfold Chatbot.readyState. rewrite W. cbn. unfold WebSocket.close. split.
    + destruct (WebSocket.readyState ws) eqn:R; cbn; rewrite ?R; cbn; lia.
    + intros ws0 [= <-]. eexists _, []. rewrite app_nil_r.
      split; [reflexivity|].
      destruct (WebSocket.readyState ws); repeat split.
  - unfold Chatbot.readyState. cbn. split; [lia|].
    intros ws W. exists ws, []. now rewrite app_nil_r.
  - destruct (handleSendMessage_inr (ChatInput.target_value e) now date s)
      as (s1 & E & _ & _ & _ & Hw).
    rewrite E in H. injection H as <-.
    unfold Chatbot.readyState.
    destruct (Chatbot.wsRef s) as [ws|];
      [|rewrite Hw; split; [cbn; lia|discriminate]].
    destruct (WebSocket.readyState ws) eqn:R; rewrite Hw; cbn; rewrite ?R;
      (split; [cbn; lia|]); intros ws0 [= <-];
      try solve [exists ws, []; rewrite app_nil_r; auto].
    eexists _, _. split; [reflexivity|]. repeat split.
  - destruct (handleSendMessage_inr value now date s)
      as (s1 & E & _ & _ & _ & Hw).
    rewrite E in H. injection H as <-.
    unfold Chatbot.readyState.
    destruct (Chatbot.wsRef s) as [ws|];
      [|rewrite Hw; split; [cbn; lia|discriminate]].
    destruct (WebSocket.readyState ws) eqn:R; rewrite Hw; cbn; rewrite ?R;
      (split; [cbn; lia|]); intros ws0 [= <-];
      try solve [exists ws, []; rewrite app_nil_r; auto].
    eexists _, _. split; [reflexivity|]. repeat split.
Qed.

Lemma run_keeps_socket evs : forall s s' : State,
  run s evs = inr s' ->
  Forall (fun ev => ev <> Chatbot.Effect) evs ->
  (phase (Chatbot.readyState s) <= phase (Chatbot.readyState s'))%nat
  /\ forall ws, Chatbot.wsRef s = Some ws ->
       exists ws' more,
         Chatbot.wsRef s' = Some ws'
         /\ WebSocket.url ws' = WebSocket.url ws
         /\ WebSocket.sent ws' = WebSocket.sent ws ++ more
         /\ WebSocket.discarded ws' = WebSocket.discarded ws.
Proof.
  induction evs as [|ev evs IH]; intros s s'.
  - cbn. intros [= <-] _. split; [lia|].
    intros ws W. exists ws, []. now rewrite app_nil_r.
  - intros H Hevs. inversion Hevs as [|? ? Hev Hevs']; subst.
    apply run_cons in H as (s1 & Hstep & Hrun).
    destruct (step_keeps_socket s ev s1 Hstep Hev) as [Hp Hk].
    destruct (IH s1 s' Hrun Hevs') as [Hp' Hk'].
    split; [lia|]. intros ws W.
    destruct (Hk ws W) as (ws1 & more1 & W1 & U1 & S1 & D1).
    destruct (Hk' ws1 W1) as (ws2 & more2 & W2 & U2 & S2 & D2).
    exists ws2, (more1 ++ more2). split; [assumption|].
    split; [congruence|]. split; [|congruence].
    now rewrite S2, S1, app_assoc.
Qed.

(** X3.  Between two runs of its effect the component keeps its socket: in
    any run in which the effect does not run again, the socket in [wsRef]
    keeps its constructor argument, what it has sent stays sent with frames
    only added after it, [send] is never called on it while it is not open,
    and it only moves forward through CONNECTING, OPEN, CLOSING, CLOSED. *)
Theorem socket_is_kept_and_only_moves_forward evs (s : State) :
  Forall (fun ev => ev <> Chatbot.Effect) evs ->
  exists s',
    run s evs = inr s'
    /\ (phase (Chatbot.readyState s) <= phase (Chatbot.readyState s'))%nat
    /\ forall ws, Chatbot.wsRef s = Some ws ->
         exists ws' more,
           Chatbot.wsRef s' = Some ws'
           /\ WebSocket.url ws' = WebSocket.url ws
           /\ WebSocket.sent ws' = WebSocket.sent ws ++ more
           /\ WebSocket.discarded ws' = WebSocket.discarded ws.
Proof.
  intros Hevs. destruct (run_total apiConfig evs s) as [s' Hrun].
  exists s'. split; [assumption|].
  exact (run_keeps_socket evs s s' Hrun Hevs).
Qed.

(** What one event puts on the wire: nothing, the priming envelope as the
    socket opens, or the payload of a send on an open socket; a new run of
    the effect starts from an empty wire. *)
Lemma step_wire (s : State) ev s' :
  step s ev = inr s' ->
  Chatbot.sent s' = Chatbot.sent s
  \/ (ev = Chatbot.Effect /\ Chatbot.sent s' = [])
  \/ (ev = Chatbot.Open
      /\ Chatbot.readyState s = Some WebSocket.CONNECTING
      /\ Chatbot.readyState s' = Some WebSocket.OPEN
      /\ Chatbot.sent s' = Chatbot.sent s ++ priming s)
  \/ exists message now date,
       user_input ev = true
       /\ Chatbot.clock ev = [now]
       /\ JsString.blank message = false
       /\ Chatbot.readyState s = Some WebSocket.OPEN
       /\ Chatbot.transcript s'
          = Chatbot.transcript s ++ [Chatbot.userMessage message now date]
       /\ Chatbot.sent s'
          = Chatbot.sent s
            ++ [Wire.JSON_stringify (turn_payload message now date s)].
Proof.
  intros H. apply step_has_shape in H.
  assert (D : Chatbot.readyState s = Some WebSocket.OPEN
              \/ Chatbot.readyState s <> Some WebSocket.OPEN)
    by (destruct (Chatbot.readyState s) as [[]|]; auto; right; discriminate).
  destruct H as [ev|W|ws s' W R H|ws data now date W R|ws W|ws W|
                 |e now date s' B H|value now date s' B H].
  - now left.
  - right; left. split; reflexivity.
  - right; right; left. rewrite onopen_established in H. injection H as <-.
    unfold Chatbot.sent, Chatbot.readyState. rewrite W. cbn. rewrite R. auto.
  - left.
    assert (E : Chatbot.wsRef (Chatbot.onmessage data now date s)
                = Chatbot.wsRef s)
      by (unfold Chatbot.onmessage; now destruct (negb _)).
    unfold Chatbot.sent. now rewrite E.
  - left. unfold Chatbot.sent. now rewrite W.
  - left. unfold Chatbot.sent. rewrite W. cbn. unfold WebSocket.close.
    now destruct (WebSocket.readyState ws).
  - now left.
  - apply handleSendMessage_result in H as (_ & Ht & _ & Ho & Hn).
    destruct D as [D|D].
    + right; right; right. destruct (Ho D) as [_ E].
      exists (ChatInput.target_value e), now, date. now repeat split.
    + left. unfold Chatbot.sent. now rewrite (Hn D).
  - apply handleSendMessage_result in H as (_ & Ht & _ & Ho & Hn).
    destruct D as [D|D].
    + right; right; right. destruct (Ho D) as [_ E].
      exists value, now, date. now repeat split.
    + left. unfold Chatbot.sent. now rewrite (Hn D).
Qed.

Lemma user_messages_app (a b : list Message.t) :
  user_messages (a ++ b) = user_messages a ++ user_messages b.
Proof. apply filter_app. Qed.

(** An event the user did not cause shows nothing in the user's name. *)
Lemma step_quiet_transcript (s : State) ev s' :
  user_input ev = false ->
  step s ev = inr s' ->
  user_messages (Chatbot.transcript s') = user_messages (Chatbot.transcript s).
Proof.
  intros Q H. apply step_has_shape in H.
  destruct H as [ev|W|ws s' W R H|ws data now date W R|ws W|ws W|
                 |e now date s' B H|value now date s' B H];
    try reflexivity; try discriminate.
  - rewrite onopen_established in H. now injection H as <-.
  - unfold Chatbot.onmessage. destruct (negb _); [|reflexivity].
    cbn. rewrite user_messages_app. cbn. now rewrite app_nil_r.
Qed.

(** What an event the user did not cause does to the wire: it leaves it,
    without taking the socket back to CONNECTING; or the effect starts a new
    socket, with an empty wire; or the socket opens and the priming envelope
    goes out. *)
Lemma step_quiet_wire (s : State) ev s' :
  user_input ev = false ->
  step s ev = inr s' ->
  (Chatbot.sent s' = Chatbot.sent s
   /\ (Chatbot.readyState s' = Some WebSocket.CONNECTING ->
       Chatbot.readyState s = Some WebSocket.CONNECTING))
  \/ Chatbot.sent s' = []
  \/ (Chatbot.readyState s = Some WebSocket.CONNECTING
      /\ Chatbot.readyState s' = Some WebSocket.OPEN
      /\ Chatbot.sent s' = Chatbot.sent s ++ priming s).
Proof.
  intros Q H. apply step_has_shape in H.
  destruct H as [ev|W|ws s' W R H|ws data now date W R|ws W|ws W|
                 |e now date s' B H|value now date s' B H];
    try discriminate.
  - left. auto.
  - right; left. reflexivity.
  - right; right. rewrite onopen_established in H. injection H as <-.
    unfold Chatbot.sent, Chatbot.readyState. rewrite W. cbn. rewrite R. auto.
  - left.
    assert (E : Chatbot.wsRef (Chatbot.onmessage data now date s)
                = Chatbot.wsRef s)
      by (unfold Chatbot.onmessage; now destruct (negb _)).
    unfold Chatbot.sent, Chatbot.readyState. rewrite E. auto.
  - left. unfold Chatbot.sent, Chatbot.readyState. rewrite W. cbn.
    split; [reflexivity|discriminate].
  - left. unfold Chatbot.sent, Chatbot.readyState. rewrite W. cbn.
    unfold WebSocket.close.
    destruct (WebSocket.readyState ws) eqn:R; cbn; rewrite ?R;
      (split; [reflexivity|]); try discriminate; auto.
  - left. auto.
Qed.

Lemma quiet_run evs : forall s : State,
  forallb (fun ev => negb (user_input ev)) evs = true ->
  exists s',
    run s evs = inr s'
    /\ user_messages (Chatbot.transcript s')
       = user_messages (Chatbot.transcript s)
    /\ (Chatbot.sent s' = Chatbot.sent s
        \/ Chatbot.sent s' = []
        \/ (Chatbot.readyState s = Some WebSocket.CONNECTING
            /\ Chatbot.sent s' = Chatbot.sent s ++ priming s)
        \/ Chatbot.sent s' = priming s).
Proof.
  induction evs as [|ev evs IH]; intros s Q.
  - exists s. cbn. auto.
  - cbn in Q. apply andb_true_iff in Q as [Qev Q].
    apply negb_true_iff in Qev.
    destruct (step_total apiConfig s ev) as [s1 Hstep].
    destruct (IH s1 Q) as (s' & Hrun & Hu & Hs).
    exists s'. split; [apply run_cons; eauto|].
    split; [rewrite Hu; now apply step_quiet_transcript with (ev := ev)|].
    rewrite (step_context apiConfig s ev s1 Hstep) in Hs.
    destruct (step_quiet_wire s ev s1 Qev Hstep)
      as [[E C]|[E|(C & O & E)]];
      destruct Hs as [Hs|[Hs|[[C1 Hs]|Hs]]]; rewrite Hs; rewrite ?E; auto.
    + right; right; left. auto.
    + rewrite O in C1. discriminate.
Qed.

(** X4.  Events the user did not cause (socket events, re-renders, effect
    and cleanup) never add to the user's side of the transcript and never
    put a turn on the wire.  After any such run the wire is what it was,
    with the priming envelope added if the socket was still connecting and
    there is a context; or, the effect having started a new socket, it is
    empty or holds that socket's priming envelope alone.  A message typed
    while the socket was not open is therefore never sent later by itself. *)
Theorem only_the_priming_envelope_without_user_input evs (s : State) :
  forallb (fun ev => negb (user_input ev)) evs = true ->
  exists s',
    run s evs = inr s'
    /\ user_messages (Chatbot.transcript s')
       = user_messages (Chatbot.transcript s)
    /\ (Chatbot.sent s' = Chatbot.sent s
        \/ Chatbot.sent s' = []
        \/ exists c,
             Chatbot.applicationContext s = Some c
             /\ (Chatbot.readyState s = Some WebSocket.CONNECTING
                 /\ Chatbot.sent s'
                    = Chatbot.sent s
                      ++ [Wire.JSON_stringify (Chatbot.initialPayload c)]
                 \/ Chatbot.sent s'
                    = [Wire.JSON_stringify (Chatbot.initialPayload c)])).
Proof.
  intros Q. destruct (quiet_run evs s Q) as (s' & Hrun & Hu & Hs).
  exists s'. split; [assumption|]. split; [assumption|].
  destruct (Chatbot.applicationContext s) as [c|].
  - destruct Hs as [Hs|[Hs|[[C Hs]|Hs]]]; auto;
      right; right; exists c; auto.
  - rewrite app_nil_r in Hs. destruct Hs as [Hs|[Hs|[[C Hs]|Hs]]]; auto.
Qed.

Lemma accounted_grows ctx (l l' : list Message.t) (f : Wire.Frame number) :
  accounted ctx l f -> accounted ctx (l ++ l') f.
Proof.
  intros (p & -> & [H|(Hc & (m & Hin & Hm) & Hh)]); exists p;
    (split; [reflexivity|]); [now left|right].
  split; [assumption|]. split.
  - exists m. split; [apply in_or_app; now left|assumption].
  - eapply Forall_impl; [|exact Hh].
    intros e (m0 & Hin0 & He). exists m0.
    split; [apply in_or_app; now left|assumption].
Qed.

Lemma wire_accounted_step (s : State) ev s' :
  wire_accounted s -> step s ev = inr s' -> wire_accounted s'.
Proof.
  intros [Hlag Hall] Hstep.
  split; [eapply snapshot_lags_step; eassumption|].
  rewrite (step_context apiConfig s ev s' Hstep).
  assert (Hold : Forall (accounted (Chatbot.applicationContext s)
                           (Chatbot.transcript s')) (Chatbot.sent s)).
  { destruct (step_transcript apiConfig s ev s' Hstep)
      as [E|(m & _ & _ & E & _)]; rewrite E; [assumption|].
    eapply Forall_impl; [|exact Hall]. intros f. apply accounted_grows. }
  destruct (step_wire s ev s' Hstep)
    as [E|[[_ E]|[(_ & _ & _ & E)
                 |(m & now & date & _ & _ & _ & _ & Ht & E)]]];
    rewrite E; [assumption|constructor| |];
    apply Forall_app; (split; [assumption|]).
  - destruct (Chatbot.applicationContext s) as [c|]; constructor;
      [|constructor].
    eexists. split; [reflexivity|]. left. now exists c.
  - constructor; [|constructor].
    eexists. split; [reflexivity|]. right. cbn. split; [reflexivity|].
    split.
    + exists (Chatbot.userMessage m now date).
      rewrite Ht. split; [apply in_or_app; right; now left|].
      split; reflexivity.
    + unfold Chatbot.conversationHistory. rewrite Forall_map.
      apply Forall_forall. intros m0 Hin.
      apply filter_In in Hin as [Hin _].
      exists m0. split; [|reflexivity].
      rewrite Ht. destruct Hlag as [suffix Hlag]. rewrite Hlag.
      apply in_app_or in Hin as [Hin|Hin]; apply in_or_app.
      * left. apply in_or_app. now left.
      * now right.
Qed.

(** X5.  Everything a mounted component has put on the wire is accounted for
    by its transcript: each frame is the priming envelope, or a payload that
    carries the prop as context, the text of a user message of the
    transcript as message, and a history whose every entry is the role and
    content of a message of the transcript. *)
Theorem wire_is_accounted_for_by_the_transcript ctx date0 evs :
  exists s,
    run (Chatbot.mount number_toString ctx date0) evs = inr s
    /\ Forall (accounted ctx (Chatbot.transcript s)) (Chatbot.sent s).
Proof.
  destruct (run_total apiConfig evs (Chatbot.mount number_toString ctx date0))
    as [s Hrun].
  exists s. split; [assumption|].
  pose proof (run_context apiConfig evs _ s Hrun) as Hc. cbn in Hc.
  rewrite <- Hc.
  refine (proj2 (run_invariant apiConfig wire_accounted (fun _ => True) _
                   evs _ s _ _ Hrun)).
  - intros x ev x' Hx _. now apply wire_accounted_step.
  - split; [exists []; reflexivity|constructor].
  - clear. induction evs; constructor; auto.
Qed.

Lemma history_app (l : list Message.t) (m : Message.t) :
  JsString.eqb (Message.id m) (str "1") = false ->
  Chatbot.conversationHistory l m
  = map Chatbot.to_entry
      (filter (fun msg => negb (JsString.eqb (Message.id msg) (str "1"))) l)
    ++ [Chatbot.to_entry m].
Proof.
  intros H. unfold Chatbot.conversationHistory.
  rewrite filter_app, map_app. cbn [filter]. now rewrite H.
Qed.

Lemma clock_reading_is_no_greeting_id now :
  now <> 1 -> JsString.eqb (JsString.toString now) (str "1") = false.
Proof.
  intros H. apply eqb_neq. intros E. apply H.
  apply toString_greeting_id. now apply eqb_eq.
Qed.

(** X6.  When no clock reading is [1], every payload a mounted component has
    sent ends its history with the very message it carries, as a user
    entry; only the priming envelope has an empty history. *)
Theorem every_payload_ends_with_its_own_message ctx date0 evs (s : State) :
  run (Chatbot.mount number_toString ctx date0) evs = inr s ->
  clock_avoids_greeting evs ->
  Forall ends_with_own_message (Chatbot.sent s).
Proof.
  intros Hrun Hclock.
  refine (run_invariant apiConfig
            (fun x => Forall ends_with_own_message (Chatbot.sent x))
            _ _ evs _ s _ Hclock Hrun); [|constructor].
  clear. intros s ev s' Hs Hev Hstep.
  destruct (step_wire s ev s' Hstep)
    as [E|[[_ E]|[(_ & _ & _ & E)
                 |(m & now & date & _ & Hc & _ & _ & _ & E)]]];
    rewrite E; [assumption|constructor| |];
    apply Forall_app; (split; [assumption|]).
  - destruct (Chatbot.applicationContext s) as [c|]; constructor;
      [|constructor].
    eexists. split; [reflexivity|]. left. split; reflexivity.
  - constructor; [|constructor].
    eexists. split; [reflexivity|]. right. cbn.
    eexists. apply history_app. cbn.
    apply clock_reading_is_no_greeting_id.
    rewrite Hc in Hev. now inversion Hev.
Qed.

Lemma greeting_first_kept ctx date0 evs (s s' : State) :
  greeting_first number_toString ctx date0 s ->
  clock_avoids_greeting evs ->
  run s evs = inr s' ->
  greeting_first number_toString ctx date0 s'.
Proof.
  intros Hs Hclock Hrun.
  refine (run_invariant apiConfig (greeting_first number_toString ctx date0)
            _ _ evs s s' Hs Hclock Hrun).
  clear. intros s ev s' (rest & Ht & Hrest) Hev Hstep.
  destruct (step_transcript apiConfig s ev s' Hstep)
    as [E|(m & now & Hc & E & Hid & _)]; unfold greeting_first; rewrite E.
  - now exists rest.
  - exists (rest ++ [m]). rewrite Ht. split; [reflexivity|].
    apply Forall_app. split; [assumption|].
    constructor; [|constructor]. rewrite Hid.
    apply clock_reading_is_no_greeting_id.
    rewrite Hc in Hev. now inversion Hev.
Qed.

(** The history of a send from a state whose render is current. *)
Lemma history_at ctx date0 (s : State) rest message now date :
  Chatbot.transcript s = Chatbot.greeting number_toString ctx date0 :: rest ->
  Forall (fun m => JsString.eqb (Message.id m) (str "1") = false) rest ->
  Chatbot.messages s = Chatbot.transcript s ->
  now <> 1 ->
  Chatbot.conversationHistory (Chatbot.messages s)
    (Chatbot.userMessage message now date)
  = map Chatbot.to_entry rest ++ [Wire.mkEntry user message].
Proof.
  intros Ht Hrest Hm Hnow.
  rewrite history_app by (now apply clock_reading_is_no_greeting_id).
  rewrite Hm, Ht. cbn [filter].
  change (JsString.eqb
            (Message.id (Chatbot.greeting number_toString ctx date0))
            (str "1")) with true.
  cbn [negb]. rewrite filter_keeps_all; [reflexivity|].
  eapply Forall_impl; [|exact Hrest].
  intros m H. cbn beta. now rewrite H.
Qed.

(** X7.  Histories accumulate: when a payload goes out, and later (after any
    events, with the render current and no clock reading [1]) another one
    does, the later history is the earlier one followed by at least one more
    entry.  The analyzer never sees a turn disappear or change place. *)
Theorem later_history_extends_earlier_history
    ctx date0 evs1 evs2 (s s1 s2 : State)
    message1 now1 date1 message2 now2 date2 :
  run (Chatbot.mount number_toString ctx date0) evs1 = inr s ->
  clock_avoids_greeting evs1 -> now1 <> 1 ->
  Chatbot.messages s = Chatbot.transcript s ->
  Chatbot.readyState s = Some WebSocket.OPEN ->
  Chatbot.handleSendMessage message1 now1 date1 s = inr s1 ->
  run s1 evs2 = inr s2 ->
  clock_avoids_greeting evs2 -> now2 <> 1 ->
  Chatbot.messages s2 = Chatbot.transcript s2 ->
  Chatbot.readyState s2 = Some WebSocket.OPEN ->
  exists p1 p2 s3 later,
    Chatbot.sent s1 = Chatbot.sent s ++ [Wire.JSON_stringify p1]
    /\ Chatbot.handleSendMessage message2 now2 date2 s2 = inr s3
    /\ Chatbot.sent s3 = Chatbot.sent s2 ++ [Wire.JSON_stringify p2]
    /\ Wire.history p2 = Wire.history p1 ++ later
    /\ later <> [].
Proof.
  intros Hrun1 Hclock1 Hnow1 Hm Ho Hsend1 Hrun2 Hclock2 Hnow2 Hm2 Ho2.
  destruct (greeting_first_run number_toString apiConfig ctx date0 evs1 s
              Hrun1 Hclock1) as (rest & Ht & Hrest).
  destruct (handleSendMessage_result _ _ _ _ _ Hsend1)
    as (_ & Ht1 & _ & Hopen1 & _).
  destruct (Hopen1 Ho) as [_ E1].
  assert (G1 : greeting_first number_toString ctx date0 s1).
  { exists (rest ++ [Chatbot.userMessage message1 now1 date1]).
    rewrite Ht1, Ht. split; [reflexivity|].
    apply Forall_app. split; [assumption|].
    constructor; [|constructor].
    now apply clock_reading_is_no_greeting_id. }
  destruct (greeting_first_kept ctx date0 evs2 s1 s2 G1 Hclock2 Hrun2)
    as (rest2 & Ht2 & Hrest2).
  destruct (run_transcript_grows evs2 s1 s2 Hrun2) as (suffix & Hgrow & _).
  assert (Hrest2' : rest2
            = rest ++ [Chatbot.userMessage message1 now1 date1] ++ suffix).
  { rewrite Ht2, Ht1, Ht in Hgrow. cbn in Hgrow.
    injection Hgrow as ->. now rewrite <- app_assoc. }
  destruct (handleSendMessage_inr message2 now2 date2 s2) as (s3 & Hsend2 & _).
  destruct (handleSendMessage_result _ _ _ _ _ Hsend2)
    as (_ & _ & _ & Hopen2 & _).
  destruct (Hopen2 Ho2) as [_ E2].
  eexists _, _, s3,
    (map Chatbot.to_entry suffix ++ [Wire.mkEntry user message2]).
  split; [exact E1|]. split; [exact Hsend2|]. split; [exact E2|].
  split.
  - cbn.
    rewrite (history_at ctx date0 s rest message1 now1 date1 Ht Hrest Hm Hnow1).
    rewrite (history_at ctx date0 s2 rest2 message2 now2 date2
               Ht2 Hrest2 Hm2 Hnow2).
    rewrite Hrest2', !map_app, <- !app_assoc. reflexivity.
  - intros H. apply app_eq_nil in H as [_ H]. discriminate.
Qed.

(** X8.  A key press, end to end.  Any key but Enter, Enter with Shift, or
    Enter on a blank value changes nothing at all.  Enter on anything else
    always shows the value, untrimmed, as a user message; it puts one
    payload carrying that same untrimmed value on an open socket, and on a
    socket that is not open it sends nothing and reports nothing in the
    transcript. *)
Theorem key_press_end_to_end (s : State) e now date :
  (ChatInput.key e <> str "Enter" \/ ChatInput.shiftKey e = true
   \/ JsString.trim (ChatInput.target_value e) = [] ->
   step s (Chatbot.KeyDown e now date) = inr s)
  /\ (ChatInput.key e = str "Enter" -> ChatInput.shiftKey e = false ->
      JsString.trim (ChatInput.target_value e) <> [] ->
      exists s',
        step s (Chatbot.KeyDown e now date) = inr s'
        /\ Chatbot.transcript s'
           = Chatbot.transcript s
             ++ [Message.mk (JsString.toString now) (ChatInput.target_value e)
                   user date]
        /\ (Chatbot.readyState s = Some WebSocket.OPEN ->
            exists p,
              Chatbot.sent s' = Chatbot.sent s ++ [Wire.JSON_stringify p]
              /\ Wire.message p = ChatInput.target_value e
              /\ Wire.context p = Chatbot.applicationContext s)
        /\ (Chatbot.readyState s <> Some WebSocket.OPEN ->
            Chatbot.sent s' = Chatbot.sent s)).
Proof.
  split.
  - intros H. cbn. unfold ChatInput.handleKeyPress.
    destruct H as [H|[H|H]].
    + apply eqb_neq in H. now rewrite H.
    + rewrite H, andb_false_r. reflexivity.
    + rewrite H. cbn. now destruct (_ && _).
  - intros Hkey Hshift Htrim. cbn. unfold ChatInput.handleKeyPress.
    rewrite Hkey, Hshift.
    change (JsString.eqb (str "Enter") (str "Enter")) with true.
    cbn [negb andb].
    destruct (JsString.trim (ChatInput.target_value e)) eqn:T;
      [now elim Htrim|]. cbn [JsString.truthy].
    destruct (handleSendMessage_inr (ChatInput.target_value e) now date s)
      as (s' & E & _).
    rewrite E. cbn. exists s'. split; [reflexivity|].
    destruct (handleSendMessage_result _ _ _ _ _ E)
      as (_ & Ht & _ & Ho & Hn).
    split; [exact Ht|]. split.
    + intros O. destruct (Ho O) as [_ Es]. eexists. split; [exact Es|].
      split; reflexivity.
    + intros N. unfold Chatbot.sent. now rewrite (Hn N).
Qed.

(** X13.  Once the effect's cleanup has called [close] (or the socket's
    [close] event has come), that socket's wire is final: until the effect
    runs again and replaces the socket, whatever follows, key presses and
    late frames included, completes without a throw, sends nothing more and
    does not even call [send].  When the effect then runs again and the new
    socket opens, the session is on a new wire that holds the priming
    envelope and nothing else. *)
Theorem nothing_is_sent_after_cleanup (s : State) ws ev evs :
  Chatbot.wsRef s = Some ws ->
  ev = Chatbot.Cleanup \/ ev = Chatbot.Close ->
  Forall (fun ev => ev <> Chatbot.Effect) evs ->
  exists s1 s2 s3,
    step s ev = inr s1
    /\ left_open s1
    /\ run s1 evs = inr s2
    /\ Chatbot.sent s2 = Chatbot.sent s
    /\ Chatbot.discarded s2 = Chatbot.discarded s
    /\ left_open s2
    /\ run s2 [Chatbot.Effect; Chatbot.Open] = inr s3
    /\ Chatbot.readyState s3 = Some WebSocket.OPEN
    /\ Chatbot.sent s3 = priming s
    /\ Chatbot.discarded s3 = [].
Proof.
  intros W Hev Hevs.
  assert (H1 : exists s1, step s ev = inr s1 /\ left_open s1
                          /\ Chatbot.sent s1 = Chatbot.sent s
                          /\ Chatbot.discarded s1 = Chatbot.discarded s).
  { destruct Hev as [-> | ->]; cbn; rewrite W; eexists;
      (split; [reflexivity|]);
      unfold left_open, Chatbot.readyState, Chatbot.sent, Chatbot.discarded;
      cbn; rewrite W.
    - unfold WebSocket.close.
      destruct (WebSocket.readyState ws) eqn:R; cbn; rewrite ?R; auto.
    - auto. }
  destruct H1 as (s1 & Hstep & L1 & E1 & D1).
  destruct (left_open_run apiConfig evs s1 L1 Hevs)
    as (s2 & Hrun & E2 & D2 & L2).
  assert (C : Chatbot.applicationContext s2 = Chatbot.applicationContext s).
  { rewrite (run_context apiConfig _ _ _ Hrun).
    exact (step_context apiConfig _ _ _ Hstep). }
  assert (H3 : exists s3,
             run s2 [Chatbot.Effect; Chatbot.Open] = inr s3
             /\ Chatbot.readyState s3 = Some WebSocket.OPEN
             /\ Chatbot.sent s3 = priming s2
             /\ Chatbot.discarded s3 = []).
  { assert (E : step s2 Chatbot.Effect = inr (Chatbot.useEffect apiConfig s2)).
    { unfold left_open, Chatbot.readyState in L2. cbn.
      destruct (Chatbot.wsRef s2) as [ws2|]; [|reflexivity].
      cbn in L2. now destruct L2 as [[= ->]|[= ->]]. }
    cbn [Chatbot.run]. rewrite E. cbn.
    rewrite onopen_established. cbn.
    eexists. split; [reflexivity|]. repeat split. }
  destruct H3 as (s3 & Hrun3 & R3 & E3 & D3). rewrite C in E3.
  exists s1, s2, s3. repeat split; try assumption; congruence.
Qed.

End ChatbotFurther.

(* ===================================================================== *)
(** ** Facts about the context-free variant *)
(* ===================================================================== *)

Section FallbackFacts.
Context {number : Type}.
Variable apiConfig : ApiConfig.t.

Local Abbreviation FState := (FallbackChatbot.State number).

(** A send of the context-free variant: the message is shown, and its bare
    text goes out when the socket is open. *)
Lemma fallback_send message now date (f : FState) :
  exists f',
    FallbackChatbot.handleSendMessage message now date f = inr f'
    /\ FallbackChatbot.transcript f'
       = FallbackChatbot.transcript f
         ++ [FallbackChatbot.userMessage message now date]
    /\ (FallbackSession.sent f' = FallbackSession.sent f
        \/ FallbackSession.sent f'
           = FallbackSession.sent f ++ [Wire.Text message]).
Proof.
  unfold FallbackChatbot.handleSendMessage, FallbackChatbot.setMessages,
    FallbackSession.sent.
  cbn. destruct (FallbackChatbot.wsRef f) as [ws|]; [|eauto].
  unfold WebSocket.send.
  destruct (WebSocket.readyState ws) eqn:R; cbn; eauto.
Qed.

(** X9.  The echo round trip of the context-free variant: on an open socket
    a send puts the bare text on the wire, and when the server answers with
    ["echo: "] followed by that text, the transcript gains the user message
    and an assistant message with the very same text, whatever the text
    holds (further ["echo: "] included). *)
Theorem fallback_echo_round_trip
    (f : FState) ws message now date now' date' :
  FallbackChatbot.wsRef f = Some ws ->
  WebSocket.readyState ws = WebSocket.OPEN ->
  exists f1,
    FallbackChatbot.handleSendMessage message now date f = inr f1
    /\ FallbackSession.sent f1 = FallbackSession.sent f ++ [Wire.Text message]
    /\ FallbackChatbot.transcript
         (FallbackChatbot.onmessage (str "echo: " ++ message) now' date' f1)
       = FallbackChatbot.transcript f
         ++ [Message.mk (JsString.toString now) message user date;
             Message.mk (JsString.toString now') message assistant date'].
Proof.
  intros W R.
  unfold FallbackChatbot.handleSendMessage, FallbackChatbot.setMessages,
    FallbackSession.sent.
  cbn. rewrite W. unfold WebSocket.send. rewrite R. cbn.
  eexists. split; [reflexivity|]. split; [reflexivity|].
  cbn. now rewrite <- app_assoc.
Qed.

Lemma fallback_step (f : FState) ev :
  exists f',
    FallbackSession.step apiConfig f ev = inr f'
    /\ (exists shown,
          FallbackChatbot.transcript f'
          = FallbackChatbot.transcript f ++ shown)
    /\ (FallbackSession.sent f' = FallbackSession.sent f
        \/ exists message now date,
             JsString.blank message = false
             /\ FallbackChatbot.transcript f'
                = FallbackChatbot.transcript f
                  ++ [FallbackChatbot.userMessage message now date]
             /\ FallbackSession.sent f'
                = FallbackSession.sent f ++ [Wire.Text message]).
Proof.
  assert (Same : forall x : FState,
            exists shown, FallbackChatbot.transcript x
                          = FallbackChatbot.transcript x ++ shown)
    by (intros x; exists []; now rewrite app_nil_r).
  destruct ev; cbn.
  - unfold FallbackSession.sent.
    destruct (FallbackChatbot.wsRef f) eqn:W; eexists;
      (split; [reflexivity|]); cbn; rewrite ?W; auto.
  - unfold FallbackSession.sent.
    destruct (FallbackChatbot.wsRef f) as [ws|] eqn:W;
      [|eexists; split; [reflexivity|]; rewrite W; auto].
    destruct (WebSocket.readyState ws); eexists;
      (split; [reflexivity|]); cbn; rewrite ?W; auto.
  - unfold FallbackSession.sent.
    destruct (FallbackChatbot.wsRef f) as [ws|] eqn:W;
      [|eexists; split; [reflexivity|]; rewrite W; auto].
    destruct (WebSocket.readyState ws); eexists;
      (split; [reflexivity|]); rewrite ?W; auto.
    unfold FallbackChatbot.onmessage.
    destruct (negb _); cbn; rewrite W; split; auto. eauto.
  - eexists. split; [reflexivity|]. auto.
  - unfold FallbackSession.sent.
    destruct (FallbackChatbot.wsRef f) as [ws|] eqn:W; eexists;
      (split; [reflexivity|]); cbn; rewrite ?W; auto.
  - unfold FallbackSession.sent.
    destruct (FallbackChatbot.wsRef f) as [ws|] eqn:W; eexists;
      (split; [reflexivity|]); cbn; rewrite ?W; auto.
    split; [auto|]. left. unfold WebSocket.close.
    now destruct (WebSocket.readyState ws).
  - eexists. split; [reflexivity|]. auto.
  - unfold ChatInput.handleKeyPress.
    destruct (_ && _); [|eexists; split; [reflexivity|]; auto].
    rewrite trim_truthy.
    destruct (JsString.blank (ChatInput.target_value e)) eqn:B; cbn;
      [eexists; split; [reflexivity|]; auto|].
    destruct (fallback_send (ChatInput.target_value e) now date f)
      as (f' & E & Ht & Hs).
    rewrite E. cbn. exists f'. split; [reflexivity|].
    split; [eauto|]. destruct Hs as [Hs|Hs]; [now left|].
    right. now exists (ChatInput.target_value e), now, date.
  - unfold ChatInput.handleSendClick.
    destruct textarea as [value|]; [|eexists; split; [reflexivity|]; auto].
    rewrite trim_truthy.
    destruct (JsString.blank value) eqn:B; cbn;
      [eexists; split; [reflexivity|]; auto|].
    destruct (fallback_send value now date f) as (f' & E & Ht & Hs).
    rewrite E. cbn. exists f'. split; [reflexivity|].
    split; [eauto|]. destruct Hs as [Hs|Hs]; [now left|].
    right. now exists value, now, date.
Qed.

Lemma bare_user_text_grows (l l' : list Message.t) (fr : Wire.Frame number) :
  bare_user_text l fr -> bare_user_text (l ++ l') fr.
Proof.
  intros (m & Hin & Hm). exists m.
  split; [apply in_or_app; now left|assumption].
Qed.

Lemma fallback_run_wire evs : forall f : FState,
  Forall (bare_user_text (FallbackChatbot.transcript f))
    (FallbackSession.sent f) ->
  exists f',
    FallbackSession.run apiConfig f evs = inr f'
    /\ Forall (bare_user_text (FallbackChatbot.transcript f'))
         (FallbackSession.sent f').
Proof.
  induction evs as [|ev evs IH]; intros f Hf; cbn; [eauto|].
  destruct (fallback_step f ev) as (f1 & E & [shown Ht] & Hs).
  rewrite E. cbn. apply IH.
  assert (Hold : Forall (bare_user_text (FallbackChatbot.transcript f1))
                   (FallbackSession.sent f)).
  { rewrite Ht. eapply Forall_impl; [|exact Hf].
    intros fr. apply bare_user_text_grows. }
  destruct Hs as [->|(m & now & date & B & Ht' & ->)]; [assumption|].
  apply Forall_app. split; [assumption|].
  constructor; [|constructor].
  exists (FallbackChatbot.userMessage m now date).
  rewrite Ht'. split; [apply in_or_app; right; now left|].
  repeat split. exact B.
Qed.

(** X10.  The context-free variant sends no envelope and no priming frame:
    whatever happens to a mounted component, every frame on its wire is the
    bare, untrimmed and non-blank text of a user message of its
    transcript. *)
Theorem fallback_wire_is_bare_user_text date0 evs :
  exists f : FState,
    FallbackSession.run apiConfig (FallbackChatbot.mount date0) evs = inr f
    /\ Forall (bare_user_text (FallbackChatbot.transcript f))
         (FallbackSession.sent f).
Proof. apply fallback_run_wire. constructor. Qed.

End FallbackFacts.

(* ===================================================================== *)
(** ** Facts about [apiConfig] *)
(* ===================================================================== *)

Lemma or_else_truthy value fallback :
  fallback <> [] -> ApiConfig.or_else value fallback <> [].
Proof.
  intros H. unfold ApiConfig.or_else.
  destruct value as [[|c s]|]; cbn; try assumption. discriminate.
Qed.

(** X11.  Whatever the environment holds, neither base address is empty: a
    variable that is unset or set to the empty string gives the localhost
    default, any other value is used as it is. *)
Theorem base_urls_are_never_empty env :
  ApiConfig.baseUrl (ApiConfig.apiConfig env) <> []
  /\ ApiConfig.wsUrl (ApiConfig.apiConfig env) <> []
  /\ (ApiConfig.VITE_WS_URL env = None \/ ApiConfig.VITE_WS_URL env = Some [] ->
      ApiConfig.wsUrl (ApiConfig.apiConfig env) = str "ws://localhost:8000")
  /\ (ApiConfig.VITE_API_URL env = None \/ ApiConfig.VITE_API_URL env = Some [] ->
      ApiConfig.baseUrl (ApiConfig.apiConfig env) = str "http://localhost:8000")
  /\ (forall url, url <> [] ->
        (ApiConfig.VITE_WS_URL env = Some url ->
         ApiConfig.wsUrl (ApiConfig.apiConfig env) = url)
        /\ (ApiConfig.VITE_API_URL env = Some url ->
            ApiConfig.baseUrl (ApiConfig.apiConfig env) = url)).
Proof.
  split; [apply or_else_truthy; discriminate|].
  split; [apply or_else_truthy; discriminate|].
  cbn. unfold ApiConfig.WS_URL, ApiConfig.API_URL.
  split; [intros [->| ->]; reflexivity|].
  split; [intros [->| ->]; reflexivity|].
  intros url Hurl. split; intros ->; (destruct url; [now elim Hurl|reflexivity]).
Qed.

(** X12.  The address [chatWs] builds can be read back: it starts with the
    socket base address, the application identifier is what follows
    ["/ws/chat/"], and so two identifiers never share an address. *)
Theorem chat_address_reads_back_the_application env a b :
  firstn (List.length (ApiConfig.wsUrl (ApiConfig.apiConfig env)))
    (ApiConfig.chatWs (ApiConfig.endpoints (ApiConfig.apiConfig env)) a)
  = ApiConfig.wsUrl (ApiConfig.apiConfig env)
  /\ skipn (List.length (ApiConfig.wsUrl (ApiConfig.apiConfig env)) + 9)
       (ApiConfig.chatWs (ApiConfig.endpoints (ApiConfig.apiConfig env)) a)
     = a
  /\ (ApiConfig.chatWs (ApiConfig.endpoints (ApiConfig.apiConfig env)) a
      = ApiConfig.chatWs (ApiConfig.endpoints (ApiConfig.apiConfig env)) b ->
      a = b).
Proof.
  cbn [ApiConfig.apiConfig ApiConfig.endpoints ApiConfig.chatWs ApiConfig.wsUrl].
  split; [|split].
  - rewrite firstn_app, Nat.sub_diag, firstn_all. cbn. apply app_nil_r.
  - rewrite skipn_app.
    rewrite skipn_all2 by lia. cbn [app].
    replace (List.length (ApiConfig.WS_URL env) + 9
             - List.length (ApiConfig.WS_URL env))%nat with 9%nat by lia.
    reflexivity.
  - intros H. apply app_inv_head in H. now apply app_inv_head in H.
Qed.

(* ===================================================================== *)
(** ** The further facts on concrete sessions *)
(* ===================================================================== *)

Lemma quiet_session_sends_the_priming_envelope_only :
  forallb (fun ev => negb (user_input ev)) Sample.quiet = true
  /\ exists s',
       Chatbot.run Demo.config (Demo.after (Some Demo.ana) Demo.one_turn)
         Sample.quiet = inr s'
       /\ user_messages (Chatbot.transcript s')
          = user_messages
              (Chatbot.transcript (Demo.after (Some Demo.ana) Demo.one_turn))
       /\ (Chatbot.sent s'
           = Chatbot.sent (Demo.after (Some Demo.ana) Demo.one_turn)
           \/ Chatbot.sent s' = []
           \/ exists c,
                Chatbot.applicationContext
                  (Demo.after (Some Demo.ana) Demo.one_turn) = Some c
                /\ (Chatbot.readyState
                      (Demo.after (Some Demo.ana) Demo.one_turn)
                    = Some WebSocket.CONNECTING
                    /\ Chatbot.sent s'
                       = Chatbot.sent
                           (Demo.after (Some Demo.ana) Demo.one_turn)
                         ++ [Wire.JSON_stringify (Chatbot.initialPayload c)]
                    \/ Chatbot.sent s'
                       = [Wire.JSON_stringify (Chatbot.initialPayload c)])).
Proof.
  split; [reflexivity|].
  apply (only_the_priming_envelope_without_user_input Demo.config
           Sample.quiet (Demo.after (Some Demo.ana) Demo.one_turn)).
  reflexivity.
Defined.

Lemma one_socket_is_kept :
  Forall (fun ev => ev <> Chatbot.Effect) Sample.one_socket
  /\ exists s',
       Chatbot.run Demo.config (Demo.after None [Chatbot.Effect])
         Sample.one_socket = inr s'
       /\ (phase (Chatbot.readyState (Demo.after None [Chatbot.Effect]))
           <= phase (Chatbot.readyState s'))%nat
       /\ forall ws,
            Chatbot.wsRef (Demo.after None [Chatbot.Effect]) = Some ws ->
            exists ws' more,
              Chatbot.wsRef s' = Some ws'
              /\ WebSocket.url ws' = WebSocket.url ws
              /\ WebSocket.sent ws' = WebSocket.sent ws ++ more
              /\ WebSocket.discarded ws' = WebSocket.discarded ws.
Proof.
  assert (H : Forall (fun ev => ev <> Chatbot.Effect) Sample.one_socket)
    by (repeat constructor; discriminate).
  split; [exact H|].
  exact (socket_is_kept_and_only_moves_forward Demo.config Sample.one_socket
           (Demo.after None [Chatbot.Effect]) H).
Defined.

Lemma payloads_of_one_turn_end_with_their_message :
  clock_avoids_greeting Demo.one_turn
  /\ Forall ends_with_own_message
       (Chatbot.sent (Demo.after (Some Demo.ana) Demo.one_turn)).
Proof.
  assert (H : clock_avoids_greeting Demo.one_turn)
    by (unfold clock_avoids_greeting; repeat constructor; lia).
  split; [exact H|].
  exact (every_payload_ends_with_its_own_message JsString.toString
           Demo.config (Some Demo.ana) 0 Demo.one_turn
           (Demo.after (Some Demo.ana) Demo.one_turn) eq_refl H).
Defined.

Lemma second_history_extends_the_first :
  exists p1 p2 s3 later,
    Chatbot.sent Sample.after_thanks
    = Chatbot.sent (Demo.after None Demo.one_turn) ++ [Wire.JSON_stringify p1]
    /\ Chatbot.handleSendMessage (str "Bye") 1700000002000 1700000002000
         Sample.after_next_turn = inr s3
    /\ Chatbot.sent s3
       = Chatbot.sent Sample.after_next_turn ++ [Wire.JSON_stringify p2]
    /\ Wire.history p2 = Wire.history p1 ++ later
    /\ later <> [].
Proof.
  apply (later_history_extends_earlier_history JsString.toString Demo.config
           None 0 Demo.one_turn Sample.next_turn
           (Demo.after None Demo.one_turn) Sample.after_thanks
           Sample.after_next_turn
           (str "Thanks") 1700000001000 1700000001000
           (str "Bye") 1700000002000 1700000002000).
  - reflexivity.
  - unfold clock_avoids_greeting. repeat constructor; lia.
  - lia.
  - reflexivity.
  - reflexivity.
  - reflexivity.
  - reflexivity.
  - unfold clock_avoids_greeting. repeat constructor; lia.
  - lia.
  - reflexivity.
  - reflexivity.
Defined.

Lemma echo_of_a_message_that_says_echo :
  exists f1,
    FallbackChatbot.handleSendMessage (str "say echo: twice")
      1700000000000 1700000000000 Sample.fallback_open = inr f1
    /\ FallbackSession.sent f1
       = FallbackSession.sent Sample.fallback_open
         ++ [Wire.Text (str "say echo: twice")]
    /\ FallbackChatbot.transcript
         (FallbackChatbot.onmessage (str "echo: " ++ str "say echo: twice")
            1700000000300 1700000000300 f1)
       = FallbackChatbot.transcript Sample.fallback_open
         ++ [Message.mk (JsString.toString 1700000000000)
               (str "say echo: twice") user 1700000000000;
             Message.mk (JsString.toString 1700000000300)
               (str "say echo: twice") assistant 1700000000300].
Proof.
  eapply (fallback_echo_round_trip Sample.fallback_open _
            (str "say echo: twice") 1700000000000 1700000000000
            1700000000300 1700000000300).
  - reflexivity.
  - reflexivity.
Defined.

Lemma keys_after_cleanup_send_nothing :
  exists s1 s2 s3,
    Chatbot.step Demo.config
      (Demo.after (Some Demo.ana) [Chatbot.Effect; Chatbot.Open])
      Chatbot.Cleanup = inr s1
    /\ left_open s1
    /\ Chatbot.run Demo.config s1
         [Chatbot.KeyDown (Demo.enter "Hi") 1700000000000 1700000000000;
          Chatbot.Close] = inr s2
    /\ Chatbot.sent s2
       = Chatbot.sent
           (Demo.after (Some Demo.ana) [Chatbot.Effect; Chatbot.Open])
    /\ Chatbot.discarded s2
       = Chatbot.discarded
           (Demo.after (Some Demo.ana) [Chatbot.Effect; Chatbot.Open])
    /\ left_open s2
    /\ Chatbot.run Demo.config s2 [Chatbot.Effect; Chatbot.Open] = inr s3
    /\ Chatbot.readyState s3 = Some WebSocket.OPEN
    /\ Chatbot.sent s3
       = [Wire.JSON_stringify (Chatbot.initialPayload Demo.ana)]
    /\ Chatbot.discarded s3 = [].
Proof.
  eapply (nothing_is_sent_after_cleanup Demo.config
            (Demo.after (Some Demo.ana) [Chatbot.Effect; Chatbot.Open]) _
            Chatbot.Cleanup).
  - reflexivity.
  - now left.
  - repeat constructor; discriminate.
Defined.
